(** * PN532 NFC reader driver (pn532.py): frame codec, protocol engine
      and command catalog, embedded as state-passing functions.

    Python values are modelled as follows.
    - an [int] is a [Z]; a [bytes]/[bytearray]/list of ints is a [list Z];
      storing into a [bytearray] checks the value range (ValueError) and the
      index (IndexError) as Python does; where the code adds a caller's
      sequence to a list, which only a list allows, the sequence is a
      [pyseq], which keeps its kind;
    - [None] versus a value is [option];
    - an exception is a constructor of [exn]; a method is a function of the
      world returning either a value or a raised exception, and the new
      world;
    - the hardware (I2C bus, SPI bus, GPIO lines, the wall clock behind the
      ready polls) is the [world]: a trace of the bus operations performed
      so far and a script of what the device answers next.  A ready poll is
      given twice: [_wait_ready] is one scripted step, enough where only
      its verdict matters; [_wait_ready_loop] is the loop as written, with
      its status reads on the bus. *)

From Stdlib Require Import ZArith String List Lia Bool.
From stdpp Require Import base list.
Import ListNotations.
Local Open Scope Z_scope.

(** ** Exceptions and outcomes *)

Inductive exn : Type :=
| OSError
| RuntimeError (msg : string)
| AssertionError (msg : string)
| IndexError
| TypeError
| ValueError.

Inductive outcome (A : Type) : Type :=
| Ok (a : A)
| Raise (e : exn).
Arguments Ok {A} a.
Arguments Raise {A} e.

Definition obind {A B} (o : outcome A) (f : A -> outcome B) : outcome B :=
  match o with
  | Ok a => f a
  | Raise e => Raise e
  end.

Declare Scope py_scope.
Delimit Scope py_scope with py.
Notation "x <~ o ;; k" := (obind o (fun x => k))
  (at level 100, o at next level, right associativity) : py_scope.
Local Open Scope py_scope.

(** ** Python containers *)

Definition is_byte (v : Z) : bool := (0 <=? v) && (v <? 256).

(** [bytearray(n)]: [n] zero bytes. *)
Definition bytearray (n : Z) : list Z := replicate (Z.to_nat n) 0.

(** [l[i]] for a non-negative index. *)
Definition getitem (l : list Z) (i : Z) : outcome Z :=
  match l !! Z.to_nat i with
  | Some v => Ok v
  | None => Raise IndexError
  end.

(** [r[i]] where [r] may be [None]: subscripting [None] is a TypeError. *)
Definition subscript (r : option (list Z)) (i : Z) : outcome Z :=
  match r with
  | None => Raise TypeError
  | Some l => getitem l i
  end.

(** [a[i] = v] on a bytearray. *)
Definition setitem (a : list Z) (i : Z) (v : Z) : outcome (list Z) :=
  if negb (is_byte v) then Raise ValueError
  else if Nat.ltb (Z.to_nat i) (length a) then Ok (<[Z.to_nat i := v]> a)
  else Raise IndexError.

(** [a[lo:hi] = vs] on a bytearray, for [0 <= lo <= hi]. *)
Definition setslice (a : list Z) (lo hi : Z) (vs : list Z) : outcome (list Z) :=
  if forallb is_byte vs
  then Ok (take (Z.to_nat lo) a ++ vs ++ drop (Z.to_nat hi) a)
  else Raise ValueError.

(** [l[lo:hi]] for non-negative bounds. *)
Definition slice (l : list Z) (lo hi : Z) : list Z :=
  take (Z.to_nat (hi - lo)) (drop (Z.to_nat lo) l).

(** [l[lo:]]. *)
Definition slice_from (l : list Z) (lo : Z) : list Z := drop (Z.to_nat lo) l.

(** [sum(l)]. *)
Definition sum (l : list Z) : Z := foldr Z.add 0 l.

(** [len(l)]. *)
Definition len (l : list Z) : Z := Z.of_nat (length l).

(** A sequence of ints handed in by the caller: a [list], or a [bytes] or
    [bytearray] object.  [len], truth value, iteration and indexing work
    on all of them alike ([items]); [list + x] needs [x] to be a list. *)
Inductive pyseq : Type :=
| PyList (l : list Z)
| PyBytes (l : list Z).

#[warning="-uniform-inheritance"]
Coercion PyList : list >-> pyseq.

Definition items (x : pyseq) : list Z :=
  match x with
  | PyList l | PyBytes l => l
  end.

(** [l + x] for a list [l]: "can only concatenate list (not "bytes") to
    list" is a TypeError. *)
Definition list_add (l : list Z) (x : pyseq) : outcome (list Z) :=
  match x with
  | PyList d => Ok (l ++ d)
  | PyBytes _ => Raise TypeError
  end.

(** [acc = 0; for i in range(count): acc += l[start+i]]. *)
Fixpoint sum_items (l : list Z) (start : Z) (count : nat) (acc : Z) : outcome Z :=
  match count with
  | O => Ok acc
  | S n => v <~ getitem l start ;; sum_items l (start + 1) n (acc + v)
  end.

(** ** The hardware *)

Inductive event : Type :=
| I2cWriteByte (b : Z)                 (* _i2c.write_byte(addr, b) *)
| I2cReadByte                          (* _i2c.read_byte(addr) *)
| SpiWriteBytes (bs : list Z)          (* _spi.writebytes(bs) *)
| SpiXfer2 (bs : list Z)               (* _spi.xfer2(bs) *)
| GpioOutput (pin : Z) (level : bool)  (* _gpio.output(pin, level) *)
| WaitReady (timeout : Z).             (* one _wait_ready(timeout) *)

(** [trace]: bus operations so far, latest first.  The other fields script
    the device: [tx_err] says for each coming bus write whether it raises
    OSError (none left: it succeeds), [rx] gives each coming byte read
    ([None], or none left: OSError), [ready] the verdict of each coming
    ready poll (none left: the poll times out). *)
Record world : Type := World {
  trace : list event;
  tx_err : list bool;
  rx : list (option Z);
  ready : list bool
}.

Definition log (e : event) (w : world) : world :=
  World (e :: trace w) (tx_err w) (rx w) (ready w).

Definition M (A : Type) : Type := world -> outcome A * world.

Definition ret {A} (a : A) : M A := fun w => (Ok a, w).
Definition raise {A} (e : exn) : M A := fun w => (Raise e, w).
Definition lift {A} (o : outcome A) : M A := fun w => (o, w).

Definition bind {A B} (m : M A) (f : A -> M B) : M B :=
  fun w => match m w with
           | (Ok a, w') => f a w'
           | (Raise e, w') => (Raise e, w')
           end.

Notation "x <- m ;; k" := (bind m (fun x => k))
  (at level 100, m at next level, right associativity) : py_scope.
Notation "m ;;; k" := (bind m (fun _ => k))
  (at level 100, right associativity) : py_scope.

(** [try: x = m  except OSError: h] followed by [k x]. *)
Definition try_OSError {A B} (m : M A) (h : M B) (k : A -> M B) : M B :=
  fun w => match m w with
           | (Ok a, w') => k a w'
           | (Raise OSError, w') => h w'
           | (Raise e, w') => (Raise e, w')
           end.

(** [assert c, msg]. *)
Definition assert (c : bool) (msg : string) : M unit :=
  if c then ret tt else raise (AssertionError msg).

(** [for x in l: f x]. *)
Fixpoint for_each {A} (l : list A) (f : A -> M unit) : M unit :=
  match l with
  | [] => ret tt
  | x :: r => f x ;;; for_each r f
  end.

(** Bus primitives. *)

Definition bus_write (e : event) : M unit := fun w =>
  match tx_err w with
  | true :: t => (Raise OSError, World (e :: trace w) t (rx w) (ready w))
  | false :: t => (Ok tt, World (e :: trace w) t (rx w) (ready w))
  | [] => (Ok tt, log e w)
  end.

Definition i2c_write_byte (b : Z) : M unit := bus_write (I2cWriteByte b).

Definition spi_writebytes (bs : list Z) : M unit := bus_write (SpiWriteBytes bs).

Definition i2c_read_byte : M Z := fun w =>
  match rx w with
  | Some b :: t => (Ok b, World (I2cReadByte :: trace w) (tx_err w) t (ready w))
  | None :: t => (Raise OSError, World (I2cReadByte :: trace w) (tx_err w) t (ready w))
  | [] => (Raise OSError, log I2cReadByte w)
  end.

(** Bytes clocked in while [n] bytes are clocked out. *)
Fixpoint clock_in (n : nat) (q : list (option Z)) : outcome (list Z) * list (option Z) :=
  match n with
  | O => (Ok [], q)
  | S n' =>
      match q with
      | Some b :: t =>
          match clock_in n' t with
          | (Ok bs, t') => (Ok (b :: bs), t')
          | (Raise e, t') => (Raise e, t')
          end
      | None :: t => (Raise OSError, t)
      | [] => (Raise OSError, [])
      end
  end.

(** [_spi.xfer2(bs)]: full duplex, returns as many bytes as it sends. *)
Definition spi_xfer2 (bs : list Z) : M (list Z) := fun w =>
  match clock_in (length bs) (rx w) with
  | (o, q) => (o, World (SpiXfer2 bs :: trace w) (tx_err w) q (ready w))
  end.

Definition gpio_output (pin : Z) (level : bool) : M unit := fun w =>
  (Ok tt, log (GpioOutput pin level) w).

(** A whole [_wait_ready] call taken as one step: the world scripts its
    verdict, and the status reads the poll makes on the bus are left out.
    The loops themselves are [_wait_ready_loop] of each transport. *)
Definition poll_ready (timeout : Z) : M bool := fun w =>
  match ready w with
  | b :: t => (Ok b, World (WaitReady timeout :: trace w) (tx_err w) (rx w) t)
  | [] => (Ok false, log (WaitReady timeout) w)
  end.

Definition GPIO_LOW : bool := false.
Definition GPIO_HIGH : bool := true.

(** ** Constants of pn532.py *)

Definition _COMMAND_GETFIRMWAREVERSION : Z := 0x02.
Definition _COMMAND_READGPIO : Z := 0x0C.
Definition _COMMAND_WRITEGPIO : Z := 0x0E.
Definition _COMMAND_SAMCONFIGURATION : Z := 0x14.
Definition _COMMAND_INLISTPASSIVETARGET : Z := 0x4A.
Definition _COMMAND_INDATAEXCHANGE : Z := 0x40.
Definition _MIFARE_ISO14443A : Z := 0x00.
Definition MIFARE_CMD_AUTH_A : Z := 0x60.
Definition MIFARE_CMD_AUTH_B : Z := 0x61.
Definition MIFARE_CMD_READ : Z := 0x30.
Definition MIFARE_CMD_WRITE : Z := 0xA0.
Definition NTAG2XX_BLOCK_COUNT : Z := 231.
Definition NTAG2XX_USER_START_PAGE : Z := 4.
Definition NTAG2XX_USER_END_PAGE : Z := 129.
Definition NTAG2XX_CMD_READ : Z := 0x30.
Definition NTAG2XX_CMD_WRITE : Z := 0xA2.
Definition PN532_SPI_DATAWRITE : Z := 0x01.
Definition PN532_SPI_DATAREAD : Z := 0x03.
Definition PN532_SPI_STATREAD : Z := 0x02.

(** ** Code shared by the transports *)

(** [l[i] != v]. *)
Definition item_ne (l : list Z) (i v : Z) : outcome bool :=
  x <~ getitem l i ;; Ok (negb (x =? v)).

(** [a or b], evaluated left to right with short circuit. *)
Definition por (a b : outcome bool) : outcome bool :=
  x <~ a ;; if x then Ok true else b.

(** [f[0] != 0 or f[1] != 0 or f[2] != 0xFF]: the test applied to the
    acknowledgement and to the response header. *)
Definition bad_start (f : list Z) : outcome bool :=
  por (item_ne f 0 0) (por (item_ne f 1 0) (item_ne f 2 0xFF)).

(** [for i, val in enumerate(params): data[2+i] = val]. *)
Fixpoint store_params (data : list Z) (i : Z) (params : list Z) : outcome (list Z) :=
  match params with
  | [] => Ok data
  | val :: r => d <~ setitem data (2 + i) val ;; store_params d (i + 1) r
  end.

(** "Build frame data with command and parameters" of [call_function]:
    [len(None)] is a TypeError. *)
Definition frame_data (command : Z) (params : option (list Z)) : outcome (list Z) :=
  match params with
  | None => Raise TypeError
  | Some ps =>
      let data := bytearray (2 + len ps) in
      data <~ setitem data 0 0xD4 ;;
      data <~ setitem data 1 (Z.land command 0xFF) ;;
      store_params data 0 ps
  end.

(** The command frame built by [send_command]; [extra] is 7 for I2C and
    UART, 8 for SPI; [postamble] says whether [cmd[6+len(data)] = 0x00] is
    executed (SPI and UART). *)
Definition command_frame (extra : Z) (postamble : bool) (data : list Z) : outcome (list Z) :=
  let cmd := bytearray (len data + extra) in
  cmd <~ setitem cmd 0 0x00 ;;
  cmd <~ setitem cmd 1 0x00 ;;
  cmd <~ setitem cmd 2 0xFF ;;
  cmd <~ setitem cmd 3 (len data + 1) ;;
  c3 <~ getitem cmd 3 ;;
  cmd <~ setitem cmd 4 (Z.land (Z.lnot c3 + 1) 0xFF) ;;
  cmd <~ setslice cmd 5 (5 + len data) data ;;
  let checksum := Z.land (sum data) 0xFF in
  cmd <~ setitem cmd (5 + len data) (Z.land (Z.lnot checksum) 0xFF) ;;
  if postamble then setitem cmd (6 + len data) 0x00 else Ok cmd.

(** The assertion that opens [send_command]. *)
Definition send_command_assert (data : list Z) : M unit :=
  assert ((1 <? len data) && (len data <? 255))
         "Data must be array of 1 to 255 bytes.".

(** [range(0, n, step)]. *)
Definition range_step (n step : Z) : list Z :=
  map (fun k => Z.of_nat k * step) (seq 0 (Z.to_nat ((n + step - 1) / step))).

(** ** class PN532: the command catalog

    [call_function] is supplied by the transport subclasses. *)

Module PN532.
Section Methods.

Variable call_function :
  Z -> option (list Z) -> Z -> Z -> M (option (list Z)).

Definition firmware_version : M (option (list Z)) :=
  call_function _COMMAND_GETFIRMWAREVERSION None 4 1.

Definition get_firmware_version : M (Z * Z * Z * Z) :=
  response <- call_function _COMMAND_GETFIRMWAREVERSION None 4 1 ;;
  match response with
  | None => raise (RuntimeError "Failed to get firmware version!")
  | Some r =>
      r0 <- lift (getitem r 0) ;;
      r1 <- lift (getitem r 1) ;;
      r2 <- lift (getitem r 2) ;;
      r3 <- lift (getitem r 3) ;;
      ret (r0, r1, r2, r3)
  end.

Definition SAM_configuration : M (option (list Z)) :=
  call_function _COMMAND_SAMCONFIGURATION (Some [0x01; 0x14; 0x01]) 1 1.

Definition read_passive_target (card_baud timeout : Z) : M (option (list Z)) :=
  response <- call_function _COMMAND_INLISTPASSIVETARGET
                (Some [0x01; card_baud]) 20 timeout ;;
  match response with
  | None => ret None
  | Some r =>
      r0 <- lift (getitem r 0) ;;
      if negb (r0 =? 0x01) then raise (RuntimeError "More than one card detected!")
      else
        r5 <- lift (getitem r 5) ;;
        if 7 <? r5 then raise (RuntimeError "Found card with unexpectedly long UID!")
        else ret (Some (slice r 6 (6 + r5)))
  end.

Definition get_passive_mifare : M (option (Z * list Z)) :=
  response <- read_passive_target _MIFARE_ISO14443A 1000 ;;
  match response with
  | None => ret None
  | Some r => ret (Some (len r, r))
  end.

(** [if not key: key = b'\xFF\xFF\xFF\xFF\xFF\xFF']. *)
Definition default_key (key : option (list Z)) : list Z :=
  match key with
  | None | Some [] => [0xFF; 0xFF; 0xFF; 0xFF; 0xFF; 0xFF]
  | Some k => k
  end.

(** [key_cmd] of [read_mifare] and [write_mifare]. *)
Definition key_cmd (block_number key_number : Z) (key uid : list Z) : list Z :=
  let key_cmd := [MIFARE_CMD_AUTH_B; block_number] in
  let key_cmd := if key_number =? 0 then <[0%nat := MIFARE_CMD_AUTH_A]> key_cmd
                 else key_cmd in
  key_cmd ++ key ++ uid.

Definition read_mifare (block_number key_number : Z) (key : option (list Z))
  : M (list Z) :=
  let key := default_key key in
  target <- get_passive_mifare ;;
  match target with
  | None => raise TypeError          (* uidlen, uid = None *)
  | Some (uidlen, uid) =>
      response <- call_function _COMMAND_INDATAEXCHANGE
                    (Some (0x01 :: key_cmd block_number key_number key uid))
                    1 1000 ;;
      r0 <- lift (subscript response 0) ;;
      if negb (r0 =? 0) then raise (RuntimeError "Failed to authenticate card")
      else
        response <- call_function _COMMAND_INDATAEXCHANGE
                      (Some [0x01; MIFARE_CMD_READ; block_number]) 17 1000 ;;
        r0 <- lift (subscript response 0) ;;
        if negb (r0 =? 0) then raise (RuntimeError "Failed to read data")
        else match response with
             | Some r => ret (slice_from r 1)
             | None => raise TypeError
             end
  end.

(** The arguments of the second exchange are evaluated before the call:
    [[0x01, MIFARE_CMD_WRITE, block_number] + data] raises for a [data]
    that is not a list, after the authentication exchange. *)
Definition write_mifare (block_number : Z) (data : pyseq) (key_number : Z)
    (key : option (list Z)) : M bool :=
  assert (negb (len (items data) =? 0) && (len (items data) =? 16))
         "Data must be an array of 16 bytes!" ;;;
  let key := default_key key in
  target <- get_passive_mifare ;;
  match target with
  | None => raise TypeError          (* uidlen, uid = None *)
  | Some (uidlen, uid) =>
      response <- call_function _COMMAND_INDATAEXCHANGE
                    (Some (0x01 :: key_cmd block_number key_number key uid))
                    1 1000 ;;
      r0 <- lift (subscript response 0) ;;
      if negb (r0 =? 0) then raise (RuntimeError "Failed to authenticate card")
      else
        params <- lift (list_add [0x01; MIFARE_CMD_WRITE; block_number] data) ;;
        response <- call_function _COMMAND_INDATAEXCHANGE (Some params)
                      1 1000 ;;
        r0 <- lift (subscript response 0) ;;
        if negb (r0 =? 0) then raise (RuntimeError "Failed to write data")
        else ret true
  end.

Definition read_ntag2xx (block_number : Z) : M (list Z) :=
  if NTAG2XX_BLOCK_COUNT <? block_number
  then raise (RuntimeError "Block must be 0..231")
  else
    response <- call_function _COMMAND_INDATAEXCHANGE
                  (Some [0x01; NTAG2XX_CMD_READ; block_number]) 17 1000 ;;
    r0 <- lift (subscript response 0) ;;
    if negb (r0 =? 0) then raise (RuntimeError "Failed to read data")
    else match response with
         | Some r => ret (slice_from r 1)
         | None => raise TypeError
         end.

Definition write_ntag2xx (block_number : Z) (data : pyseq) : M bool :=
  assert (negb (len (items data) =? 0) && (len (items data) =? 4))
         "Data must be an array of 4 bytes!" ;;;
  if (block_number <? NTAG2XX_USER_START_PAGE)
     || (NTAG2XX_USER_END_PAGE <? block_number)
  then raise (RuntimeError "Block must be user block4..129")
  else
    params <- lift (list_add [0x01; NTAG2XX_CMD_WRITE; block_number] data) ;;
    response <- call_function _COMMAND_INDATAEXCHANGE (Some params)
                  1 1000 ;;
    r0 <- lift (subscript response 0) ;;
    if negb (r0 =? 0) then raise (RuntimeError "Failed to write data")
    else ret true.

(** [if not response]: [None] or an empty sequence. *)
Definition not_response (response : option (list Z)) : bool :=
  match response with
  | None | Some [] => true
  | Some _ => false
  end.

Definition read_gpio : M (option (list Z)) :=
  response <- call_function _COMMAND_READGPIO None 3 1000 ;;
  if not_response response then raise (RuntimeError "Failed to read GPIO")
  else ret response.

Definition write_gpio (p3 p7 : Z) : M bool :=
  response <- call_function _COMMAND_WRITEGPIO (Some [p3; p7]) 1 1000 ;;
  if not_response response then raise (RuntimeError "Failed to write GPIO")
  else
    r0 <- lift (subscript response 0) ;;
    if negb (r0 =? 0) then raise (RuntimeError "Failed to write GPIO")
    else ret true.

End Methods.
End PN532.

(** ** class PN532_SPI *)

Module PN532_SPI.
Section Transport.

Variable _cs : Z.

Definition _wait_ready (timeout : Z) : M bool := poll_ready timeout.

Definition write_data (data : list Z) : M unit :=
  gpio_output _cs GPIO_LOW ;;;
  spi_writebytes (PN532_SPI_DATAWRITE :: data) ;;;
  gpio_output _cs GPIO_HIGH.

Definition _wakeup : M unit :=
  gpio_output _cs GPIO_LOW ;;;
  spi_writebytes [0x00] ;;;
  gpio_output _cs GPIO_HIGH.

Definition send_command (data : list Z) : M unit :=
  send_command_assert data ;;;
  cmd <- lift (command_frame 8 true data) ;;
  write_data cmd.

(** [self._spi.xfer2([PN532_SPI_DATAREAD] + [0]*n)[1:]] between chip
    select low and high. *)
Definition xfer_read (n : Z) : M (list Z) :=
  gpio_output _cs GPIO_LOW ;;;
  r <- spi_xfer2 (PN532_SPI_DATAREAD :: replicate (Z.to_nat n) 0) ;;
  gpio_output _cs GPIO_HIGH ;;;
  ret (slice_from r 1).

(** [read_data]: a read transfer with [count + 1] zero bytes after the
    read command. *)
Definition read_data (count : Z) : M (list Z) := xfer_read (count + 1).

(** [call_function] from "Read response" to its end. *)
Definition call_function_response (response_length : Z) : M (option (list Z)) :=
  frame <- xfer_read 3 ;;
  bad <- lift (bad_start frame) ;;
  if bad then ret None
  else
    data_len <- lift (getitem frame 3) ;;
    f4 <- lift (getitem frame 4) ;;
    if negb (Z.land (data_len + f4) 0xFF =? 0) then ret None
    else
      let max_read := Z.min (response_length + 6) (data_len + 6) in
      response <- xfer_read (max_read - 4) ;;
      checksum <- lift (sum_items response 5 (Z.to_nat (data_len + 1)) 0) ;;
      if negb (Z.land checksum 0xFF =? 0) then ret None
      else ret (Some (slice response 6 (6 + data_len))).

Definition call_function (command : Z) (params : option (list Z))
    (response_length timeout : Z) : M (option (list Z)) :=
  data <- lift (frame_data command params) ;;
  try_OSError (send_command data) (_wakeup ;;; ret None) (fun _ =>
  rdy <- _wait_ready timeout ;;
  if negb rdy then ret None
  else
    ack <- xfer_read 6 ;;
    bad <- lift (bad_start ack) ;;
    if bad then ret None
    else
      rdy <- _wait_ready timeout ;;
      if negb rdy then ret None
      else call_function_response response_length).

(** The loop of [_wait_ready] as written.  The wall clock is the
    environment's: [left] counts how many more times the loop test
    [(time.time() - start) < timeout] holds.  Each round is one status
    transfer between chip select low and high; status 0x01 sleeps and goes
    round again, any other status ends the poll, ready if it is 0xFF.  An
    OSError of the transfer is not caught. *)
Fixpoint status_loop (left : nat) : M bool :=
  match left with
  | O => ret false
  | S left' =>
      gpio_output _cs GPIO_LOW ;;;
      r <- spi_xfer2 [PN532_SPI_STATREAD; 0] ;;
      status <- lift (getitem r 1) ;;
      gpio_output _cs GPIO_HIGH ;;;
      if status =? 0x01 then status_loop left'
      else ret (status =? 0xFF)
  end.

Definition _wait_ready_loop (left : nat) (timeout : Z) : M bool :=
  status_loop left.

(** [call_function] with the ready poll as a parameter: the same body,
    whatever [self._wait_ready] does. *)
Definition call_function_polling (wait : Z -> M bool)
    (command : Z) (params : option (list Z))
    (response_length timeout : Z) : M (option (list Z)) :=
  data <- lift (frame_data command params) ;;
  try_OSError (send_command data) (_wakeup ;;; ret None) (fun _ =>
  rdy <- wait timeout ;;
  if negb rdy then ret None
  else
    ack <- xfer_read 6 ;;
    bad <- lift (bad_start ack) ;;
    if bad then ret None
    else
      rdy <- wait timeout ;;
      if negb rdy then ret None
      else call_function_response response_length).

End Transport.
End PN532_SPI.

(** ** class PN532_I2C *)

Module PN532_I2C.
Section Transport.

Variable _req : option Z.

Definition _wait_ready (timeout : Z) : M bool := poll_ready timeout.

(** [if self._req is not None: self._gpio.output(self._req, level)]. *)
Definition req_output (level : bool) : M unit :=
  match _req with
  | Some pin => gpio_output pin level
  | None => ret tt
  end.

Definition write_data (data : list Z) : M unit :=
  for_each (range_step (len data) 16) (fun i =>
    let chunk := slice data i (Z.min (i + 16) (len data)) in
    for_each chunk i2c_write_byte).

(** [for i in range(count): result[i] = self._i2c.read_byte(self._addr)],
    with [n] rounds left. *)
Fixpoint read_loop (n : nat) (i : Z) (result : list Z) : M (list Z) :=
  match n with
  | O => ret result
  | S n' =>
      b <- i2c_read_byte ;;
      result <- lift (setitem result i b) ;;
      read_loop n' (i + 1) result
  end.

Definition read_data (count : Z) : M (list Z) :=
  read_loop (Z.to_nat count) 0 (bytearray count).

Definition _wakeup : M unit :=
  match _req with
  | Some pin => gpio_output pin GPIO_LOW ;;; gpio_output pin GPIO_HIGH
  | None => ret tt
  end.

Definition send_command (data : list Z) : M unit :=
  send_command_assert data ;;;
  cmd <- lift (command_frame 7 false data) ;;
  req_output GPIO_LOW ;;;
  write_data cmd ;;;
  req_output GPIO_HIGH.

(** [call_function] from "Read response" to its end. *)
Definition call_function_response : M (option (list Z)) :=
  try_OSError (read_data 3) (ret None) (fun frame =>
  bad <- lift (bad_start frame) ;;
  if bad then ret None
  else
    frame_len <- read_data 2 ;;
    l0 <- lift (getitem frame_len 0) ;;
    l1 <- lift (getitem frame_len 1) ;;
    if negb (Z.land (l0 + l1) 0xFF =? 0) then ret None
    else
      data_len <- lift (getitem frame_len 0) ;;
      try_OSError (read_data (data_len + 2)) (ret None) (fun response =>
      checksum <- lift (sum_items response 0 (Z.to_nat (data_len + 1)) 0) ;;
      if negb (Z.land checksum 0xFF =? 0) then ret None
      else ret (Some (slice response 1 (1 + data_len - 1))))).

Definition call_function (command : Z) (params : option (list Z))
    (response_length timeout : Z) : M (option (list Z)) :=
  data <- lift (frame_data command params) ;;
  try_OSError (send_command data) (_wakeup ;;; ret None) (fun _ =>
  rdy <- _wait_ready timeout ;;
  if negb rdy then ret None
  else
    try_OSError (read_data 6) (ret None) (fun ack =>
    bad <- lift (bad_start ack) ;;
    if bad then ret None
    else
      rdy <- _wait_ready timeout ;;
      if negb rdy then ret None
      else call_function_response)).

Variable _irq : option Z.

(** The IRQ branch of [_wait_ready]: [while self._gpio.input(self._irq)],
    giving up once [time.time() - start > timeout].  [levels] are the
    levels read on the pin one after the other (none left: the line stays
    high); [left] counts how many more times the clock test finds the
    timeout not exceeded.  Reading a pin is no bus operation. *)
Fixpoint irq_loop (left : nat) (levels : list bool) : bool :=
  match levels with
  | false :: _ => true
  | true :: levels' =>
      match left with
      | O => false
      | S left' => irq_loop left' levels'
      end
  | [] => false
  end.

(** The polling branch: [while time.time() - start < timeout], each round
    one [read_byte]; [status & 1] ends the poll ready, an OSError of the
    read is passed over; [left] counts how many more times the loop test
    holds. *)
Fixpoint status_loop (left : nat) : M bool :=
  match left with
  | O => ret false
  | S left' =>
      try_OSError i2c_read_byte (status_loop left')
        (fun status => if negb (Z.land status 1 =? 0) then ret true
                       else status_loop left')
  end.

(** The loop of [_wait_ready] as written. *)
Definition _wait_ready_loop (levels : list bool) (left : nat) (timeout : Z)
  : M bool :=
  match _irq with
  | Some _ => ret (irq_loop left levels)
  | None => status_loop left
  end.

(** [call_function] with the ready poll as a parameter: the same body,
    whatever [self._wait_ready] does. *)
Definition call_function_polling (wait : Z -> M bool)
    (command : Z) (params : option (list Z))
    (response_length timeout : Z) : M (option (list Z)) :=
  data <- lift (frame_data command params) ;;
  try_OSError (send_command data) (_wakeup ;;; ret None) (fun _ =>
  rdy <- wait timeout ;;
  if negb rdy then ret None
  else
    try_OSError (read_data 6) (ret None) (fun ack =>
    bad <- lift (bad_start ack) ;;
    if bad then ret None
    else
      rdy <- wait timeout ;;
      if negb rdy then ret None
      else call_function_response)).

End Transport.
End PN532_I2C.

(** ** A device script for running examples *)

Definition device (errs : list bool) (bytes : list (option Z)) (polls : list bool) : world :=
  World [] errs bytes polls.

Definition run {A} (m : M A) (w : world) : outcome A := fst (m w).

(** ** What a run leaves untouched *)

(** Number of bus reads in a trace. *)
Fixpoint reads (t : list event) : nat :=
  match t with
  | [] => O
  | (I2cReadByte | SpiXfer2 _) :: r => S (reads r)
  | _ :: r => reads r
  end.

(** The bus writes of a trace, latest first. *)
Fixpoint writes (t : list event) : list event :=
  match t with
  | [] => []
  | (I2cWriteByte _ | SpiWriteBytes _) as e :: r => e :: writes r
  | _ :: r => writes r
  end.

(** What the device has still to deliver, and how often it was read. *)
Definition read_view (w : world) : list (option Z) * nat := (rx w, reads (trace w)).

Definition write_view (w : world) : list event := writes (trace w).

(** [same f]: the run did not change the view [f] of the world. *)
Definition same {X} (f : world -> X) (w w' : world) : Prop := f w' = f w.

Definition preserves (R : world -> world -> Prop) {A} (m : M A) : Prop :=
  forall w, R w (snd (m w)).

(** Modelled from the spec: the fixed 6-byte acknowledgement constant.
    pn532.py has no name for it and tests three of its bytes inline; the
    bytes here are those of the PN532 acknowledgement frame. *)
Definition ACK : list Z := [0x00; 0x00; 0xFF; 0x00; 0xFF; 0x00].

(** * Properties *)

Ltac mrun :=
  unfold bind, lift, ret, raise, try_OSError, assert in *; simpl in *.

(** ** Command catalog *)

Section Catalog.

Variable cf : Z -> option (list Z) -> Z -> Z -> M (option (list Z)).

Lemma read_passive_target_some card_baud timeout w w' r :
  cf _COMMAND_INLISTPASSIVETARGET (Some [0x01; card_baud]) 20 timeout w
    = (Ok (Some r), w') ->
  PN532.read_passive_target cf card_baud timeout w =
    match getitem r 0 with
    | Raise e => (Raise e, w')
    | Ok r0 =>
        if negb (r0 =? 1) then (Raise (RuntimeError "More than one card detected!"), w')
        else match getitem r 5 with
             | Raise e => (Raise e, w')
             | Ok r5 =>
                 if 7 <? r5
                 then (Raise (RuntimeError "Found card with unexpectedly long UID!"), w')
                 else (Ok (Some (slice r 6 (6 + r5))), w')
             end
    end.
Proof.
  intros H. unfold PN532.read_passive_target. mrun. rewrite H.
  destruct (getitem r 0) as [r0|]; [|reflexivity].
  destruct (negb (r0 =? 1)); [reflexivity|].
  destruct (getitem r 5) as [r5|]; [|reflexivity].
  destruct (7 <? r5); reflexivity.
Qed.

Lemma read_passive_target_none card_baud timeout w w' :
  cf _COMMAND_INLISTPASSIVETARGET (Some [0x01; card_baud]) 20 timeout w
    = (Ok None, w') ->
  PN532.read_passive_target cf card_baud timeout w = (Ok None, w').
Proof. intros H. unfold PN532.read_passive_target. mrun. now rewrite H. Qed.

Lemma get_passive_mifare_none w w' :
  cf _COMMAND_INLISTPASSIVETARGET (Some [0x01; _MIFARE_ISO14443A]) 20 1000 w
    = (Ok None, w') ->
  PN532.get_passive_mifare cf w = (Ok None, w').
Proof.
  intros H. unfold PN532.get_passive_mifare. unfold bind at 1.
  now rewrite (read_passive_target_none _ _ _ _ H).
Qed.

(** A failed target listing makes [read_mifare] unpack [None]. *)
Lemma read_mifare_no_target block_number key_number key w w' :
  cf _COMMAND_INLISTPASSIVETARGET (Some [0x01; _MIFARE_ISO14443A]) 20 1000 w
    = (Ok None, w') ->
  PN532.read_mifare cf block_number key_number key w = (Raise TypeError, w').
Proof.
  intros H. unfold PN532.read_mifare. unfold bind at 1.
  now rewrite (get_passive_mifare_none _ _ H).
Qed.

Lemma write_mifare_no_target block_number data key_number key w w' :
  length data = 16%nat ->
  cf _COMMAND_INLISTPASSIVETARGET (Some [0x01; _MIFARE_ISO14443A]) 20 1000 w
    = (Ok None, w') ->
  PN532.write_mifare cf block_number data key_number key w = (Raise TypeError, w').
Proof.
  intros Hl H. unfold PN532.write_mifare, len. cbn [items]. rewrite Hl. simpl.
  unfold assert, bind at 1, ret. unfold bind at 1.
  now rewrite (get_passive_mifare_none _ _ H).
Qed.

End Catalog.

(** C5. [read_passive_target] on a decoded response [r]: a target count of
    2 raises the more-than-one-card error; a UID length of 8 raises the
    UID-too-long error when the target count is 1, and raises in any case;
    a target count of 1 and a UID length of 4 followed by 4 UID bytes
    returns exactly those bytes, [r[6:6+4]]. *)
Theorem read_passive_target_decoding
    (cf : Z -> option (list Z) -> Z -> Z -> M (option (list Z)))
    (card_baud timeout : Z) (w w' : world) (r : list Z) :
  cf _COMMAND_INLISTPASSIVETARGET (Some [0x01; card_baud]) 20 timeout w
    = (Ok (Some r), w') ->
  (r !! 0%nat = Some 2 ->
     PN532.read_passive_target cf card_baud timeout w
       = (Raise (RuntimeError "More than one card detected!"), w'))
  /\ (r !! 0%nat = Some 1 -> r !! 5%nat = Some 8 ->
     PN532.read_passive_target cf card_baud timeout w
       = (Raise (RuntimeError "Found card with unexpectedly long UID!"), w'))
  /\ (r !! 5%nat = Some 8 ->
     exists msg, PN532.read_passive_target cf card_baud timeout w
       = (Raise (RuntimeError msg), w'))
  /\ (forall f1 f2 f3 f4 uid rest,
        r = 1 :: f1 :: f2 :: f3 :: f4 :: 4 :: uid ++ rest ->
        length uid = 4%nat ->
        PN532.read_passive_target cf card_baud timeout w = (Ok (Some uid), w')
        /\ uid = slice r 6 (6 + 4)).
Proof.
  intros H. rewrite (read_passive_target_some _ _ _ _ _ _ H).
  unfold getitem. change (Z.to_nat 0) with 0%nat. change (Z.to_nat 5) with 5%nat.
  repeat split.
  - intros ->. reflexivity.
  - intros -> ->. reflexivity.
  - intros H5. destruct (r !! 0%nat) as [r0|] eqn:H0.
    + destruct (negb (r0 =? 1)); [eauto|]. rewrite H5. simpl. eauto.
    + apply lookup_ge_None in H0. apply lookup_lt_Some in H5. lia.
  - subst r. simpl. unfold slice.
    change (Z.to_nat (6 + 4 - 6)) with 4%nat. change (Z.to_nat 6) with 6%nat.
    simpl. rewrite ?drop_0, take_app_length'; auto.
  - subst r. unfold slice.
    change (Z.to_nat (6 + 4 - 6)) with 4%nat. change (Z.to_nat 6) with 6%nat.
    simpl. rewrite ?drop_0, take_app_length'; auto.
Qed.

Lemma read_passive_target_decoding_witness :
  let cf := fun _ _ _ _ => ret (Some [1; 0; 4; 0; 8; 4; 0xDE; 0xAD; 0xBE; 0xEF]) in
  PN532.read_passive_target cf 0 1000 (device [] [] [])
    = (Ok (Some [0xDE; 0xAD; 0xBE; 0xEF]), device [] [] [])
  /\ [0xDE; 0xAD; 0xBE; 0xEF] = slice [1; 0; 4; 0; 8; 4; 0xDE; 0xAD; 0xBE; 0xEF] 6 (6 + 4).
Proof.
  intros cf.
  exact (proj2 (proj2 (proj2
    (read_passive_target_decoding cf 0 1000 (device [] [] []) (device [] [] [])
       [1; 0; 4; 0; 8; 4; 0xDE; 0xAD; 0xBE; 0xEF] eq_refl)))
    0 4 0 8 [0xDE; 0xAD; 0xBE; 0xEF] [] eq_refl eq_refl).
Defined.

(** [get_firmware_version] on what the transport answers: the first four
    bytes of the answer, in order; RuntimeError for no answer; IndexError
    for an answer of fewer than four bytes. *)
Lemma get_firmware_version_on_answer
    (cf : Z -> option (list Z) -> Z -> Z -> M (option (list Z)))
    (w w' : world) (answer : option (list Z)) :
  cf _COMMAND_GETFIRMWAREVERSION None 4 1 w = (Ok answer, w') ->
  PN532.get_firmware_version cf w
    = (match answer with
       | None => Raise (RuntimeError "Failed to get firmware version!")
       | Some (a :: b :: c :: d :: _) => Ok (a, b, c, d)
       | Some _ => Raise IndexError
       end, w').
Proof.
  intros H. unfold PN532.get_firmware_version. mrun. rewrite H.
  destruct answer as [[|a [|b [|c [|d r]]]]|]; reflexivity.
Qed.

(** C6 (fails on the code). [get_firmware_version] passes [params=None],
    and both transports take [len(params)] first: on a device that would
    answer the firmware query with the frame carrying 32 01 06 07, the
    call raises TypeError before any bus operation, on I2C and on SPI, and
    decodes nothing.  The exchange itself, made with an empty parameter
    list, succeeds on I2C and hands back the response code 03 in front of
    the four bytes, so that [get_firmware_version] over it would return
    (03, 32, 01, 06). *)
Theorem get_firmware_version_never_decodes :
  let answer := [0x00; 0x00; 0xFF; 0x06; 0xFA;
                 0xD5; 0x03; 0x32; 0x01; 0x06; 0x07; 0xE8; 0x00] in
  let w := device [] (map Some (ACK ++ answer)) [true; true] in
  PN532.get_firmware_version (PN532_I2C.call_function None) w = (Raise TypeError, w)
  /\ PN532.get_firmware_version (PN532_SPI.call_function 4) w = (Raise TypeError, w)
  /\ run (PN532_I2C.call_function None _COMMAND_GETFIRMWAREVERSION (Some []) 4 1) w
     = Ok (Some [0x03; 0x32; 0x01; 0x06; 0x07])
  /\ run (PN532.get_firmware_version
            (fun command _ => PN532_I2C.call_function None command (Some []))) w
     = Ok (0x03, 0x32, 0x01, 0x06).
Proof. vm_compute. repeat split. Qed.



(** The argument checks do not look at the kind of [data]: a [bytes] or
    [bytearray] object of the wrong length is turned down in the same way,
    before any I/O. *)
Lemma write_block_bad_length_any_sequence
    (cf : Z -> option (list Z) -> Z -> Z -> M (option (list Z)))
    (block_number : Z) (data : pyseq) (key_number : Z) (key : option (list Z))
    (w : world) :
  (length (items data) <> 16%nat ->
     PN532.write_mifare cf block_number data key_number key w
       = (Raise (AssertionError "Data must be an array of 16 bytes!"), w))
  /\ (length (items data) <> 4%nat ->
     PN532.write_ntag2xx cf block_number data w
       = (Raise (AssertionError "Data must be an array of 4 bytes!"), w)).
Proof.
  unfold PN532.write_mifare, PN532.write_ntag2xx, len. split; intros Hl.
  - replace (Z.of_nat (length (items data)) =? 16) with false by lia.
    rewrite andb_false_r. reflexivity.
  - replace (Z.of_nat (length (items data)) =? 4) with false by lia.
    rewrite andb_false_r. reflexivity.
Qed.

Section AbsentResponse.

Variable cf : Z -> option (list Z) -> Z -> Z -> M (option (list Z)).

(** When the authentication exchange gives no response, [read_mifare]
    subscripts [None]. *)
Lemma read_mifare_auth_absent block_number key_number key uidlen uid w w1 w2 :
  PN532.get_passive_mifare cf w = (Ok (Some (uidlen, uid)), w1) ->
  cf _COMMAND_INDATAEXCHANGE
     (Some (0x01 :: PN532.key_cmd block_number key_number (PN532.default_key key) uid))
     1 1000 w1 = (Ok None, w2) ->
  PN532.read_mifare cf block_number key_number key w = (Raise TypeError, w2).
Proof.
  intros Ht Ha. unfold PN532.read_mifare. unfold bind at 1. rewrite Ht.
  unfold bind at 1. rewrite Ha. reflexivity.
Qed.

Lemma write_mifare_auth_absent block_number data key_number key uidlen uid w w1 w2 :
  length data = 16%nat ->
  PN532.get_passive_mifare cf w = (Ok (Some (uidlen, uid)), w1) ->
  cf _COMMAND_INDATAEXCHANGE
     (Some (0x01 :: PN532.key_cmd block_number key_number (PN532.default_key key) uid))
     1 1000 w1 = (Ok None, w2) ->
  PN532.write_mifare cf block_number data key_number key w = (Raise TypeError, w2).
Proof.
  intros Hl Ht Ha. unfold PN532.write_mifare, len. cbn [items]. rewrite Hl. simpl.
  unfold assert, bind at 1, ret. unfold bind at 1. rewrite Ht.
  unfold bind at 1. rewrite Ha. reflexivity.
Qed.

End AbsentResponse.

(** C10 (fails on the code). With an I2C device that never becomes ready,
    [call_function] gives no response and [read_mifare] and [write_mifare]
    raise TypeError from unpacking [None]; with a device that lists a card
    and then stays silent, they raise TypeError from [response[0]] on
    [None].  [write_gpio] in the same situation raises its RuntimeError. *)
Theorem mifare_absent_response_TypeError :
  let silent := device [] [] [] in
  let card_then_silent :=
    device [] (map Some (ACK ++ [0; 0; 255; 11; 245;
                                 213; 1; 0; 0; 0; 0; 4; 1; 2; 3; 4; 28; 0]))
           [true; true] in
  let cf := PN532_I2C.call_function None in
  run (PN532.read_mifare cf 4 0 None) silent = Raise TypeError
  /\ run (PN532.write_mifare cf 4 (replicate 16 0) 0 None) silent = Raise TypeError
  /\ run (PN532.get_passive_mifare cf) card_then_silent = Ok (Some (4, [1; 2; 3; 4]))
  /\ run (PN532.read_mifare cf 4 0 None) card_then_silent = Raise TypeError
  /\ run (PN532.write_mifare cf 4 (replicate 16 0) 0 None) card_then_silent
     = Raise TypeError
  /\ run (PN532.write_gpio cf 1 2) silent = Raise (RuntimeError "Failed to write GPIO").
Proof. vm_compute. repeat split. Qed.

(** ** Frame codec *)

Lemma land_255 (x : Z) : Z.land x 0xFF = x mod 256.
Proof. change 0xFF with (Z.ones 8). rewrite Z.land_ones by lia. reflexivity. Qed.

Lemma is_byte_true (v : Z) : is_byte v = true <-> 0 <= v < 256.
Proof. unfold is_byte. lia. Qed.

Lemma is_byte_mod (x : Z) : is_byte (x mod 256) = true.
Proof. apply is_byte_true. apply Z.mod_pos_bound. lia. Qed.

Lemma setitem_ok (a : list Z) (i v : Z) :
  is_byte v = true -> (Z.to_nat i < length a)%nat ->
  setitem a i v = Ok (<[Z.to_nat i := v]> a).
Proof.
  intros Hv Hi. unfold setitem. rewrite Hv. simpl.
  destruct (Nat.ltb_spec (Z.to_nat i) (length a)); [reflexivity | lia].
Qed.

Lemma getitem_ok (a : list Z) (i v : Z) :
  a !! Z.to_nat i = Some v -> getitem a i = Ok v.
Proof. intros H. unfold getitem. now rewrite H. Qed.

(** The checksum byte [~(sum(data) & 0xFF) & 0xFF]. *)
Lemma lnot_checksum (s : Z) :
  Z.land (Z.lnot (Z.land s 0xFF)) 0xFF = 255 - s mod 256.
Proof.
  rewrite !land_255. unfold Z.lnot.
  pose proof (Z.mod_pos_bound s 256 ltac:(lia)) as Hs.
  replace (Z.pred (- (s mod 256))) with ((255 - s mod 256) + (-1) * 256) by lia.
  rewrite Z.mod_add by lia. apply Z.mod_small. lia.
Qed.

(** The length checksum byte [(~length + 1) & 0xFF]. *)
Lemma length_checksum (l : Z) :
  0 < l < 256 -> Z.land (Z.lnot l + 1) 0xFF = 256 - l.
Proof.
  intros Hl. rewrite land_255. unfold Z.lnot.
  replace (Z.pred (- l) + 1) with (- l) by lia.
  replace (- l) with ((256 - l) + (-1) * 256) by lia.
  rewrite Z.mod_add by lia. apply Z.mod_small. lia.
Qed.

(** What [send_command] builds for data it accepts: the length field is
    [len(data) + 1] and the checksum byte is [255 - sum(data) mod 256];
    [pad] is the rest of the zero-filled buffer. *)
Lemma command_frame_bytes (extra : Z) (postamble : bool) (data : list Z) :
  forallb is_byte data = true -> 1 < len data < 255 -> 7 <= extra ->
  command_frame extra postamble data =
    Ok ([0x00; 0x00; 0xFF; len data + 1; 256 - (len data + 1)] ++ data
        ++ [255 - sum data mod 256] ++ replicate (Z.to_nat (extra - 6)) 0).
Proof.
  intros Hb Hl He. unfold command_frame, bytearray, len in *.
  set (n := length data) in *.
  set (pad := replicate (Z.to_nat (extra - 6)) 0).
  assert (Hbuf : replicate (Z.to_nat (Z.of_nat n + extra)) 0
                 = 0 :: 0 :: 0 :: 0 :: 0 :: (replicate n 0 ++ 0 :: pad)).
  { replace (Z.to_nat (Z.of_nat n + extra))
      with (5 + (n + (1 + Z.to_nat (extra - 6))))%nat by lia.
    rewrite (replicate_add 5), (replicate_add n), (replicate_add 1). reflexivity. }
  rewrite Hbuf. clear Hbuf.
  assert (Hpad : length pad = Z.to_nat (extra - 6)) by apply length_replicate.
  rewrite setitem_ok by (try reflexivity; cbn [length]; lia). cbn [obind].
  change (Z.to_nat 0) with 0%nat. cbn [insert list_insert].
  rewrite setitem_ok by (try reflexivity; cbn [length]; lia). cbn [obind].
  change (Z.to_nat 1) with 1%nat. cbn [insert list_insert].
  rewrite setitem_ok by (try reflexivity; cbn [length]; lia). cbn [obind].
  change (Z.to_nat 2) with 2%nat. cbn [insert list_insert].
  rewrite setitem_ok by (try (apply is_byte_true; lia); cbn [length]; lia). cbn [obind].
  change (Z.to_nat 3) with 3%nat. cbn [insert list_insert].
  rewrite (getitem_ok _ 3 (Z.of_nat n + 1)) by reflexivity. cbn [obind].
  rewrite length_checksum by lia.
  rewrite setitem_ok by (try (apply is_byte_true; lia); cbn [length]; lia). cbn [obind].
  change (Z.to_nat 4) with 4%nat. cbn [insert list_insert].
  unfold setslice. rewrite Hb. cbn [obind].
  change (Z.to_nat 5) with 5%nat. cbn [take firstn].
  replace (Z.to_nat (5 + Z.of_nat n)) with (5 + n)%nat by lia.
  cbn [Nat.add drop skipn].
  rewrite drop_app_length' by (symmetry; apply length_replicate).
  rewrite lnot_checksum.
  set (hdr := [0; 0; 255; Z.of_nat n + 1; 256 - (Z.of_nat n + 1)]).
  change (0 :: 0 :: 255 :: Z.of_nat n + 1 :: 256 - (Z.of_nat n + 1) :: [])
    with hdr.
  assert (Hins : forall v, <[(5 + n)%nat := v]> (hdr ++ data ++ 0 :: pad)
                           = hdr ++ data ++ v :: pad).
  { intros v. rewrite (insert_app_r_alt hdr) by (simpl; lia).
    rewrite insert_app_r_alt by (simpl; fold n; lia).
    replace (5 + n - length hdr - length data)%nat with 0%nat by (simpl; fold n; lia).
    reflexivity. }
  assert (Hdcs : is_byte (255 - sum data mod 256) = true).
  { apply is_byte_true. pose proof (Z.mod_pos_bound (sum data) 256). lia. }
  rewrite setitem_ok; [| exact Hdcs |
    unfold hdr; rewrite !length_app; cbn [length]; fold n; lia].
  replace (Z.to_nat (5 + Z.of_nat n)) with (5 + n)%nat by lia.
  rewrite Hins. cbn [obind].
  destruct postamble; [|reflexivity].
  assert (Hp : pad = 0 :: replicate (Z.to_nat (extra - 7)) 0).
  { unfold pad. replace (Z.to_nat (extra - 6)) with (S (Z.to_nat (extra - 7))) by lia.
    reflexivity. }
  rewrite setitem_ok; [| reflexivity |
    unfold hdr; rewrite !length_app; cbn [length]; fold n; lia].
  f_equal. replace (Z.to_nat (6 + Z.of_nat n)) with (5 + n + 1)%nat by lia.
  rewrite (insert_app_r_alt hdr) by (simpl; lia).
  rewrite insert_app_r_alt by (simpl; fold n; lia).
  replace (5 + n + 1 - length hdr - length data)%nat with 1%nat by (simpl; fold n; lia).
  rewrite Hp. reflexivity.
Qed.

(** The invariants of a frame, read off [command_frame_bytes]: the length
    checksum cancels the length field, the length field is one more than
    the number of payload bytes, and payload plus checksum byte sum to 255
    (not 0) modulo 256. *)
Lemma command_frame_fields (data : list Z) :
  1 < len data < 255 ->
  let length_field := len data + 1 in
  let length_checksum := 256 - (len data + 1) in
  let payload_checksum := 255 - sum data mod 256 in
  (length_field + length_checksum) mod 256 = 0
  /\ length_field <> len data
  /\ (sum data + payload_checksum) mod 256 = 255.
Proof.
  intros Hl. cbv zeta. repeat split.
  - replace (len data + 1 + (256 - (len data + 1))) with (1 * 256) by lia.
    apply Z.mod_mul. lia.
  - lia.
  - pose proof (Z.div_mod (sum data) 256 ltac:(lia)) as Hs.
    replace (sum data + (255 - sum data mod 256))
      with (255 + (sum data / 256) * 256) by lia.
    rewrite Z.mod_add by lia. reflexivity.
Qed.

(** ** Reading from the I2C bus *)

Lemma script_prefix (l : list Z) : forall (l' : list Z) (q q' : list (option Z)),
  map Some l ++ q = map Some l' ++ q' -> (length l <= length l')%nat ->
  l = take (length l) l' /\ q = map Some (drop (length l) l') ++ q'.
Proof.
  induction l as [|a l IH]; intros l' q q' H Hlen.
  - simpl in *. rewrite drop_0, take_0. auto.
  - destruct l' as [|a' l']; simpl in *; [lia|].
    injection H as -> H. destruct (IH l' q q' H ltac:(lia)) as [H1 H2].
    split; [f_equal; exact H1 | exact H2].
Qed.

Lemma read_loop_inv (n : nat) : forall (i : Z) (result : list Z) (w : world)
    (bs : list Z) (w' : world),
  PN532_I2C.read_loop n i result w = (Ok bs, w') ->
  0 <= i -> length result = (Z.to_nat i + n)%nat ->
  exists l, length l = n /\ bs = take (Z.to_nat i) result ++ l
            /\ rx w = map Some l ++ rx w'.
Proof.
  induction n as [|n IH]; intros i result w bs w' H Hi Hlen.
  - injection H as <- <-. exists []. rewrite app_nil_r, take_ge by lia. auto.
  - cbn [PN532_I2C.read_loop] in H. unfold bind at 1 in H.
    unfold i2c_read_byte in H.
    destruct (rx w) as [|[b|] t] eqn:Hrx; try discriminate.
    unfold bind at 1, lift, setitem in H.
    destruct (negb (is_byte b)); try discriminate.
    destruct (Nat.ltb_spec (Z.to_nat i) (length result)) as [Hlt|]; try discriminate.
    apply IH in H as (l & Hl & Hbs & Hq); [| lia | rewrite length_insert; lia].
    exists (b :: l). simpl in Hq. subst t. repeat split.
    + simpl. lia.
    + rewrite Hbs. replace (Z.to_nat (i + 1)) with (S (Z.to_nat i)) by lia.
      rewrite (take_S_r _ _ b) by (apply list_lookup_insert_eq; lia).
      rewrite take_insert_ge by lia. rewrite <- app_assoc. reflexivity.
Qed.

Lemma read_data_inv (count : Z) (w : world) (bs : list Z) (w' : world) :
  PN532_I2C.read_data count w = (Ok bs, w') -> 0 <= count ->
  length bs = Z.to_nat count /\ rx w = map Some bs ++ rx w'.
Proof.
  intros H Hc. unfold PN532_I2C.read_data, bytearray in H.
  apply read_loop_inv in H as (l & Hl & Hbs & Hq);
    [| lia | rewrite length_replicate; simpl; lia].
  simpl in Hbs. subst bs. auto.
Qed.

Lemma sum_items_ok (l : list Z) : forall (count : nat) (start acc : Z),
  0 <= start -> (Z.to_nat start + count <= length l)%nat ->
  sum_items l start count acc
    = Ok (acc + sum (take count (drop (Z.to_nat start) l))).
Proof.
  induction count as [|count IH]; intros start acc Hs Hlen.
  - simpl. f_equal. unfold sum. simpl. lia.
  - cbn [sum_items]. unfold getitem.
    destruct (l !! Z.to_nat start) as [v|] eqn:Hv.
    + cbn [obind]. rewrite IH by lia.
      rewrite (drop_S _ v (Z.to_nat start)) by exact Hv.
      replace (Z.to_nat (start + 1)) with (S (Z.to_nat start)) by lia.
      f_equal. unfold sum. simpl. lia.
    + apply lookup_ge_None in Hv. lia.
Qed.

Lemma sum_app (l k : list Z) : sum (l ++ k) = sum l + sum k.
Proof. unfold sum. induction l; simpl; lia. Qed.

Lemma payload_checksum_sum (s : Z) : (s + (255 - s mod 256)) mod 256 = 255.
Proof.
  pose proof (Z.div_mod s 256 ltac:(lia)) as Hs.
  replace (s + (255 - s mod 256)) with (255 + (s / 256) * 256) by lia.
  rewrite Z.mod_add by lia. reflexivity.
Qed.

(** The response parser of [call_function] never accepts a frame built by
    [send_command]: whatever follows the frame on the bus, the parser does
    not return a payload. *)
Lemma response_of_command_frame (data frame : list Z) (rest : list (option Z))
    (w : world) :
  forallb is_byte data = true -> 1 < len data < 255 ->
  command_frame 7 false data = Ok frame ->
  rx w = map Some frame ++ rest ->
  forall r, fst (PN532_I2C.call_function_response w) <> Ok (Some r).
Proof.
  intros Hb Hl Hf Hrx r. rewrite command_frame_bytes in Hf by (auto; lia).
  injection Hf as <-. change (replicate (Z.to_nat (7 - 6)) 0) with [0] in Hrx.
  unfold PN532_I2C.call_function_response, try_OSError at 1.
  destruct (PN532_I2C.read_data 3 w) as [[f|e] w1] eqn:E1;
    [| destruct e; unfold ret; simpl; discriminate].
  apply read_data_inv in E1 as [Hlen1 Hq1]; [|lia].
  rewrite Hrx in Hq1. symmetry in Hq1.
  apply script_prefix in Hq1 as [Hf1 Hq1]; [| simpl; lia].
  rewrite Hlen1 in Hf1, Hq1. change (Z.to_nat 3) with 3%nat in *.
  cbn [app take firstn drop skipn] in Hf1, Hq1. rewrite ?take_0 in Hf1.
  rewrite ?drop_0 in Hq1. subst f.
  unfold bind at 1. cbn [lift]. 
  change (bad_start [0; 0; 255]) with (Ok (A:=bool) false). cbv iota beta.
  unfold bind at 1.
  destruct (PN532_I2C.read_data 2 w1) as [[fl|e] w2] eqn:E2; [| unfold ret; simpl; discriminate].
  apply read_data_inv in E2 as [Hlen2 Hq2]; [|lia].
  rewrite Hq1 in Hq2. symmetry in Hq2.
  apply script_prefix in Hq2 as [Hf2 Hq2]; [| simpl; lia].
  rewrite Hlen2 in Hf2, Hq2. change (Z.to_nat 2) with 2%nat in *.
  cbn [app take firstn drop skipn] in Hf2, Hq2. rewrite ?take_0 in Hf2.
  rewrite ?drop_0 in Hq2. subst fl.
  unfold bind at 1, lift at 1. cbn [getitem]. 
  change (getitem [len data + 1; 256 - (len data + 1)] 0) with (Ok (len data + 1)).
  cbv iota beta. unfold bind at 1, lift at 1.
  change (getitem [len data + 1; 256 - (len data + 1)] 1)
    with (Ok (256 - (len data + 1))).
  cbv iota beta.
  replace (Z.land (len data + 1 + (256 - (len data + 1))) 255) with 0
    by (rewrite land_255; replace (len data + 1 + (256 - (len data + 1)))
          with (1 * 256) by lia; now rewrite Z.mod_mul by lia).
  cbn [Z.eqb negb]. unfold bind at 1, lift at 1. cbv iota beta.
  unfold try_OSError. cbv beta.
  destruct (PN532_I2C.read_data (len data + 1 + 2) w2) as [[resp|e] w3] eqn:E3;
    [| destruct e; unfold ret; simpl; discriminate].
  apply read_data_inv in E3 as [Hlen3 Hq3]; [|lia].
  assert (Hresp : take (length data + 2) resp = data ++ [255 - sum data mod 256; 0]).
  { rewrite Hq2 in Hq3.
    assert (Hx : map Some (take (length data + 2) resp)
                 ++ (map Some (drop (length data + 2) resp) ++ rx w3)
                 = map Some (data ++ [255 - sum data mod 256; 0]) ++ rest).
    { rewrite app_assoc, <- map_app, take_drop. symmetry. exact Hq3. }
    apply script_prefix in Hx as [Hx _].
    - rewrite Hx. rewrite length_take, take_ge; [reflexivity|].
      rewrite length_app. simpl. unfold len in *. lia.
    - rewrite length_take, length_app. simpl. unfold len in *. lia. }
  unfold bind at 1, lift at 1.
  rewrite sum_items_ok by (unfold len in *; lia).
  change (Z.to_nat 0) with 0%nat. rewrite drop_0.
  replace (Z.to_nat (len data + 1 + 1)) with (length data + 2)%nat
    by (unfold len; lia).
  rewrite Hresp, sum_app. cbv iota beta.
  replace (Z.land (0 + (sum data + sum [255 - sum data mod 256; 0])) 255) with 255.
  - unfold ret; simpl. discriminate.
  - rewrite land_255.
    replace (0 + (sum data + sum [255 - sum data mod 256; 0]))
      with (sum data + (255 - sum data mod 256)) by (unfold sum; simpl; lia).
    symmetry. apply payload_checksum_sum.
Qed.

(** C2 (fails on the code). The frame [send_command] builds for the
    firmware query [D4 02], on I2C and on SPI: the length checksum cancels
    the length field, but the length field is 3 for a 2-byte payload, and
    payload plus checksum byte sum to 255, not 0, modulo 256.  The frame
    the device expects for this command is [00 00 FF 02 FE D4 02 2A 00]. *)
Theorem send_command_frame_invariants :
  command_frame 7 false [0xD4; 0x02]
    = Ok [0x00; 0x00; 0xFF; 0x03; 0xFD; 0xD4; 0x02; 0x29; 0x00]
  /\ command_frame 8 true [0xD4; 0x02]
    = Ok [0x00; 0x00; 0xFF; 0x03; 0xFD; 0xD4; 0x02; 0x29; 0x00; 0x00]
  /\ (0x03 + 0xFD) mod 256 = 0
  /\ len [0xD4; 0x02] = 2
  /\ (sum [0xD4; 0x02] + 0x29) mod 256 = 255.
Proof. vm_compute. repeat split. Qed.

(** C1 (fails on the code). The frame [send_command] builds for the
    payload [D4 02], fed to the response parser of [call_function], is
    rejected ("Invalid checksum", [None]) whatever byte follows it; the
    frame with length 02 and checksum 2A is accepted and gives back the
    payload after the direction byte. *)
Theorem roundtrip_firmware_query :
  command_frame 7 false [0xD4; 0x02]
    = Ok [0x00; 0x00; 0xFF; 0x03; 0xFD; 0xD4; 0x02; 0x29; 0x00]
  /\ run PN532_I2C.call_function_response
       (device [] (map Some [0x00; 0x00; 0xFF; 0x03; 0xFD; 0xD4; 0x02; 0x29; 0x00]) [])
     = Ok None
  /\ run PN532_I2C.call_function_response
       (device [] (map Some [0x00; 0x00; 0xFF; 0x03; 0xFD; 0xD4; 0x02; 0x29; 0x00; 0x00]) [])
     = Ok None
  /\ run PN532_I2C.call_function_response
       (device [] (map Some [0x00; 0x00; 0xFF; 0x02; 0xFE; 0xD4; 0x02; 0x2A; 0x00]) [])
     = Ok (Some [0x02]).
Proof. vm_compute. repeat split. Qed.

(** ** Runs that leave a view of the world unchanged *)

Section Preserves.

Context {X : Type} (f : world -> X).

Lemma preserves_ret {A} (a : A) : preserves (same f) (ret a).
Proof. intros w. reflexivity. Qed.

Lemma preserves_raise {A} (e : exn) : preserves (same f) (raise (A:=A) e).
Proof. intros w. reflexivity. Qed.

Lemma preserves_lift {A} (o : outcome A) : preserves (same f) (lift o).
Proof. intros w. reflexivity. Qed.

Lemma preserves_assert (c : bool) (msg : string) : preserves (same f) (assert c msg).
Proof. intros w. destruct c; reflexivity. Qed.

Lemma preserves_bind {A B} (m : M A) (k : A -> M B) :
  preserves (same f) m -> (forall a, preserves (same f) (k a)) ->
  preserves (same f) (bind m k).
Proof.
  intros Hm Hk w. unfold bind, same in *. specialize (Hm w).
  destruct (m w) as [[a|e] w1]; simpl in *; [|exact Hm].
  rewrite <- Hm. apply Hk.
Qed.

Lemma preserves_try {A B} (m : M A) (h : M B) (k : A -> M B) :
  preserves (same f) m -> preserves (same f) h ->
  (forall a, preserves (same f) (k a)) ->
  preserves (same f) (try_OSError m h k).
Proof.
  intros Hm Hh Hk w. unfold try_OSError, same in *. specialize (Hm w).
  destruct (m w) as [[a|e] w1]; simpl in *.
  - rewrite <- Hm. apply Hk.
  - destruct e; try exact Hm. rewrite <- Hm. apply Hh.
Qed.

Lemma preserves_for_each {A} (l : list A) (g : A -> M unit) :
  (forall x, preserves (same f) (g x)) -> preserves (same f) (for_each l g).
Proof.
  intros Hg. induction l as [|x l IH]; simpl.
  - apply preserves_ret.
  - apply preserves_bind; auto.
Qed.

Lemma preserves_if {A} (b : bool) (m1 m2 : M A) :
  preserves (same f) m1 -> preserves (same f) m2 ->
  preserves (same f) (if b then m1 else m2).
Proof. destruct b; auto. Qed.

End Preserves.

Ltac preserves_step :=
  first
    [ apply preserves_ret | apply preserves_raise | apply preserves_lift
    | apply preserves_assert
    | apply preserves_bind; [| intros ?]
    | apply preserves_try; [| | intros ?]
    | apply preserves_for_each; intros ?
    | apply preserves_if ].

(** Bus writes, GPIO output and ready polls read nothing. *)

Lemma bus_write_no_read (e : event) :
  match e with I2cReadByte | SpiXfer2 _ => False | _ => True end ->
  preserves (same read_view) (bus_write e).
Proof.
  intros He w. unfold bus_write, same, read_view.
  destruct (tx_err w) as [|[|] t]; destruct e; simpl; tauto.
Qed.

Lemma gpio_output_no_read (pin : Z) (level : bool) :
  preserves (same read_view) (gpio_output pin level).
Proof. intros w. reflexivity. Qed.

Lemma poll_ready_no_read (timeout : Z) : preserves (same read_view) (poll_ready timeout).
Proof. intros w. unfold poll_ready, same, read_view. destruct (ready w); reflexivity. Qed.

Lemma i2c_send_command_no_read (_req : option Z) (data : list Z) :
  preserves (same read_view) (PN532_I2C.send_command _req data).
Proof.
  unfold PN532_I2C.send_command, send_command_assert, PN532_I2C.write_data,
    PN532_I2C.req_output, i2c_write_byte.
  repeat preserves_step;
    try (destruct _req; [apply gpio_output_no_read | apply preserves_ret]).
  now apply bus_write_no_read.
Qed.

Lemma spi_send_command_no_read (_cs : Z) (data : list Z) :
  preserves (same read_view) (PN532_SPI.send_command _cs data).
Proof.
  unfold PN532_SPI.send_command, send_command_assert, PN532_SPI.write_data,
    spi_writebytes.
  repeat preserves_step; try apply gpio_output_no_read.
  now apply bus_write_no_read.
Qed.

(** Bus reads, GPIO output and ready polls write nothing. *)

Lemma i2c_read_byte_no_write : preserves (same write_view) i2c_read_byte.
Proof.
  intros w. unfold i2c_read_byte, same, write_view.
  destruct (rx w) as [|[|] t]; reflexivity.
Qed.

Lemma spi_xfer2_no_write (bs : list Z) : preserves (same write_view) (spi_xfer2 bs).
Proof.
  intros w. unfold spi_xfer2, same, write_view.
  destruct (clock_in (length bs) (rx w)); reflexivity.
Qed.

Lemma gpio_output_no_write (pin : Z) (level : bool) :
  preserves (same write_view) (gpio_output pin level).
Proof. intros w. reflexivity. Qed.

Lemma poll_ready_no_write (timeout : Z) : preserves (same write_view) (poll_ready timeout).
Proof. intros w. unfold poll_ready, same, write_view. destruct (ready w); reflexivity. Qed.

Lemma i2c_read_data_no_write (count : Z) :
  preserves (same write_view) (PN532_I2C.read_data count).
Proof.
  unfold PN532_I2C.read_data. generalize (bytearray count), 0.
  induction (Z.to_nat count) as [|n IH]; intros result i; simpl.
  - apply preserves_ret.
  - repeat preserves_step; [apply i2c_read_byte_no_write | apply IH].
Qed.

Lemma i2c_response_no_write :
  preserves (same write_view) PN532_I2C.call_function_response.
Proof.
  unfold PN532_I2C.call_function_response.
  repeat (apply i2c_read_data_no_write || preserves_step).
Qed.

Lemma i2c_wakeup_no_write (_req : option Z) :
  preserves (same write_view) (PN532_I2C._wakeup _req).
Proof.
  unfold PN532_I2C._wakeup. destruct _req; repeat preserves_step;
    apply gpio_output_no_write.
Qed.

Lemma spi_xfer_read_no_write (_cs n : Z) :
  preserves (same write_view) (PN532_SPI.xfer_read _cs n).
Proof.
  unfold PN532_SPI.xfer_read.
  repeat (apply gpio_output_no_write || apply spi_xfer2_no_write || preserves_step).
Qed.

Lemma spi_response_no_write (_cs response_length : Z) :
  preserves (same write_view) (PN532_SPI.call_function_response _cs response_length).
Proof.
  unfold PN532_SPI.call_function_response.
  repeat (apply spi_xfer_read_no_write || preserves_step).
Qed.

(** ** Protocol engine *)

(** The scripted poll instantiates the parameter of the engine. *)
Lemma call_function_scripted_poll (_req : option Z) (_cs : Z) :
  PN532_I2C.call_function _req
    = PN532_I2C.call_function_polling _req PN532_I2C._wait_ready
  /\ PN532_SPI.call_function _cs
    = PN532_SPI.call_function_polling _cs PN532_SPI._wait_ready.
Proof. split; reflexivity. Qed.






(** After its one [send_command], a run of the I2C [call_function] writes
    nothing more on the bus. *)
Lemma i2c_call_function_single_send (_req : option Z)
    (command : Z) (params : option (list Z)) (response_length timeout : Z)
    (data : list Z) (w : world) :
  frame_data command params = Ok data ->
  write_view (snd (PN532_I2C.call_function _req command params response_length timeout w))
    = write_view (snd (PN532_I2C.send_command _req data w)).
Proof.
  intros Hd. unfold PN532_I2C.call_function, bind at 1, lift. rewrite Hd.
  unfold try_OSError.
  destruct (PN532_I2C.send_command _req data w) as [[u|e] w1]; cbn [snd].
  - match goal with |- write_view (snd (?m w1)) = _ =>
      assert (Hp : preserves (same write_view) m) end.
    { unfold PN532_I2C._wait_ready.
      repeat (apply i2c_response_no_write || apply i2c_read_data_no_write
              || apply poll_ready_no_write || preserves_step). }
    apply Hp.
  - destruct e; try reflexivity.
    assert (Hp : preserves (same write_view)
                   (PN532_I2C._wakeup _req ;;; ret (@None (list Z)))).
    { repeat (apply i2c_wakeup_no_write || preserves_step). }
    apply Hp.
Qed.

(** The same for SPI, where the wake-up after a failed send writes the one
    byte [00]. *)
Lemma spi_call_function_single_send (_cs : Z)
    (command : Z) (params : option (list Z)) (response_length timeout : Z)
    (data : list Z) (w : world) :
  frame_data command params = Ok data ->
  let sent := snd (PN532_SPI.send_command _cs data w) in
  let final := snd (PN532_SPI.call_function _cs command params response_length timeout w) in
  write_view final = write_view sent
  \/ (fst (PN532_SPI.send_command _cs data w) = Raise OSError
      /\ write_view final = SpiWriteBytes [0x00] :: write_view sent).
Proof.
  intros Hd. cbv zeta.
  match goal with |- context [PN532_SPI.call_function ?a ?b ?c ?d ?e w] =>
    remember (PN532_SPI.call_function a b c d e w) as final eqn:Hfin end.
  unfold PN532_SPI.call_function, bind at 1, lift in Hfin. rewrite Hd in Hfin.
  unfold try_OSError in Hfin.
  destruct (PN532_SPI.send_command _cs data w) as [[u|e] w1]; subst final;
    cbn [snd fst].
  - left.
    match goal with |- write_view (snd (?m w1)) = _ =>
      assert (Hp : preserves (same write_view) m) end.
    { unfold PN532_SPI._wait_ready.
      repeat (apply spi_response_no_write || apply spi_xfer_read_no_write
              || apply poll_ready_no_write || preserves_step). }
    apply Hp.
  - destruct e; try (left; reflexivity). right. split; [reflexivity|].
    unfold PN532_SPI._wakeup, spi_writebytes, bus_write, gpio_output, bind, ret,
      write_view.
    simpl. destruct (tx_err w1) as [|[|] t]; reflexivity.
Qed.

(** C9. When [send_command] raises OSError, [call_function] runs
    [_wakeup] once on the world the failed send left and returns: on I2C it
    returns [None]; on SPI it returns [None], or raises the OSError of the
    wake-up write.  On no path is the frame sent again: what a run of
    [call_function] has written on the bus is what its one [send_command]
    wrote, plus on SPI the wake-up byte after a failed send. *)
Theorem send_failure_wakes_once_no_retry (_req : option Z) (_cs : Z)
    (command : Z) (params : option (list Z)) (response_length timeout : Z)
    (data : list Z) (w : world) :
  frame_data command params = Ok data ->
  (forall w1, PN532_I2C.send_command _req data w = (Raise OSError, w1) ->
     PN532_I2C.call_function _req command params response_length timeout w
       = (Ok None, snd (PN532_I2C._wakeup _req w1)))
  /\ (forall w1, PN532_SPI.send_command _cs data w = (Raise OSError, w1) ->
     PN532_SPI.call_function _cs command params response_length timeout w
       = (match fst (PN532_SPI._wakeup _cs w1) with
          | Ok _ => Ok None
          | Raise e => Raise e
          end, snd (PN532_SPI._wakeup _cs w1)))
  /\ write_view (snd (PN532_I2C.call_function _req command params response_length timeout w))
     = write_view (snd (PN532_I2C.send_command _req data w))
  /\ (write_view (snd (PN532_SPI.call_function _cs command params response_length timeout w))
      = write_view (snd (PN532_SPI.send_command _cs data w))
      \/ (fst (PN532_SPI.send_command _cs data w) = Raise OSError
          /\ write_view (snd (PN532_SPI.call_function _cs command params
                                 response_length timeout w))
             = SpiWriteBytes [0x00] :: write_view (snd (PN532_SPI.send_command _cs data w)))).
Proof.
  intros Hd. repeat split.
  - intros w1 Hs. unfold PN532_I2C.call_function, bind at 1, lift. rewrite Hd.
    unfold try_OSError. rewrite Hs. unfold bind, PN532_I2C._wakeup, ret.
    destruct _req; reflexivity.
  - intros w1 Hs. unfold PN532_SPI.call_function, bind at 1, lift. rewrite Hd.
    unfold try_OSError. rewrite Hs. unfold bind at 1.
    destruct (PN532_SPI._wakeup _cs w1) as [[u|e] w2]; reflexivity.
  - now apply i2c_call_function_single_send.
  - now apply spi_call_function_single_send.
Qed.

Lemma send_failure_wakes_once_no_retry_witness :
  let w := device [false; false; true] (map Some ACK) [true; true] in
  let w1 := snd (PN532_I2C.send_command (Some 16) [0xD4; 0x02] w) in
  PN532_I2C.call_function (Some 16) 0x02 (Some []) 4 1 w
    = (Ok None, snd (PN532_I2C._wakeup (Some 16) w1)).
Proof.
  intros w w1.
  exact (proj1 (send_failure_wakes_once_no_retry (Some 16) 4 0x02 (Some []) 4 1
                  [0xD4; 0x02] w eq_refl) w1 eq_refl).
Defined.

(** The start test looks at the first three bytes only. *)
Lemma bad_start_spec (f : list Z) :
  (3 <= length f)%nat ->
  (take 3 f = [0x00; 0x00; 0xFF] -> bad_start f = Ok false)
  /\ (take 3 f <> [0x00; 0x00; 0xFF] -> bad_start f = Ok true).
Proof.
  intros Hl. destruct f as [|a [|b [|c f]]]; simpl in Hl; try lia.
  unfold bad_start, por, item_ne, getitem. simpl. rewrite take_0. split.
  - intros [= -> -> ->]. reflexivity.
  - intros Hne. destruct (Z.eqb_spec a 0) as [->|]; [|reflexivity].
    destruct (Z.eqb_spec b 0) as [->|]; [|reflexivity].
    destruct (Z.eqb_spec c 255) as [->|]; [|reflexivity].
    contradiction.
Qed.

Lemma clock_in_length (n : nat) : forall (q q' : list (option Z)) (bs : list Z),
  clock_in n q = (Ok bs, q') -> length bs = n.
Proof.
  induction n as [|n IH]; intros q q' bs H; simpl in H.
  - injection H as <- _. reflexivity.
  - destruct q as [|[b|] t]; try discriminate.
    destruct (clock_in n t) as [[bs'|e] t'] eqn:E; try discriminate.
    injection H as <- _. simpl. f_equal. eapply IH, E.
Qed.

(** A read transfer for [n] bytes returns exactly [n] bytes. *)
Lemma xfer_read_length (_cs n : Z) (w w' : world) (r : list Z) :
  PN532_SPI.xfer_read _cs n w = (Ok r, w') -> length r = Z.to_nat n.
Proof.
  unfold PN532_SPI.xfer_read, bind, gpio_output, spi_xfer2, ret, slice_from.
  cbn [log trace tx_err rx ready length].
  destruct (clock_in (S (length (replicate (Z.to_nat n) 0))) (rx w))
    as [[bs|e] q] eqn:E; intros H; try discriminate.
  injection H as <- _. apply clock_in_length in E.
  rewrite length_replicate in E. change (Z.to_nat 1) with 1%nat.
  rewrite length_drop. lia.
Qed.

(** The SPI response parser reads a 3-byte header and then indexes
    positions 3 and 4 of it: it never returns a response. *)
Lemma spi_response_never_returns (_cs response_length : Z) (w : world) (r : list Z) :
  fst (PN532_SPI.call_function_response _cs response_length w) <> Ok (Some r).
Proof.
  unfold PN532_SPI.call_function_response, bind at 1.
  destruct (PN532_SPI.xfer_read _cs 3 w) as [[frame|e] w1] eqn:E;
    [| simpl; discriminate].
  apply xfer_read_length in E. change (Z.to_nat 3) with 3%nat in E.
  unfold bind at 1, lift at 1.
  destruct (bad_start frame) as [[|]|e]; [unfold ret; simpl; discriminate | |
                                          simpl; discriminate].
  unfold bind at 1, lift at 1, getitem.
  change (Z.to_nat 3) with 3%nat.
  rewrite (lookup_ge_None_2 frame 3) by lia. simpl. discriminate.
Qed.

Lemma spi_call_function_never_returns (_cs : Z)
    (command : Z) (params : option (list Z)) (response_length timeout : Z)
    (w : world) (r : list Z) :
  fst (PN532_SPI.call_function _cs command params response_length timeout w)
    <> Ok (Some r).
Proof.
  unfold PN532_SPI.call_function, bind at 1, lift at 1.
  destruct (frame_data command params) as [data|e]; [| simpl; discriminate].
  unfold try_OSError.
  destruct (PN532_SPI.send_command _cs data w) as [[u|e] w1].
  - unfold bind at 1.
    destruct (PN532_SPI._wait_ready timeout w1) as [[[|]|e] w2];
      [| unfold ret; simpl; discriminate | simpl; discriminate].
    cbn [negb]. unfold bind at 1.
    destruct (PN532_SPI.xfer_read _cs 6 w2) as [[ack|e] w3];
      [| simpl; discriminate].
    unfold bind at 1, lift at 1.
    destruct (bad_start ack) as [[|]|e];
      [unfold ret; simpl; discriminate | | simpl; discriminate].
    unfold bind at 1.
    destruct (PN532_SPI._wait_ready timeout w3) as [[[|]|e] w4];
      [| unfold ret; simpl; discriminate | simpl; discriminate].
    cbn [negb]. apply spi_response_never_returns.
  - destruct e; try (simpl; discriminate).
    unfold bind. destruct (PN532_SPI._wakeup _cs w1) as [[u|e] w2];
      unfold ret; simpl; discriminate.
Qed.

(** C4 (fails on the code). On SPI, with the command sent, a ready device,
    the acknowledgement [00 00 FF 00 FF 00], a ready device again and a
    response that starts [00 00 FF], [call_function] raises IndexError: the
    header transfer clocks 4 bytes and keeps 3, and [frame[3]] is out of
    range.  On I2C the same answer is parsed and returned. *)
Theorem spi_header_index_out_of_range :
  let answer := [0x00; 0x00; 0xFF; 0x02; 0xFE; 0xD5; 0x03; 0x28; 0x00] in
  run (PN532_SPI.call_function 4 0x02 (Some []) 4 1)
      (device [] (map Some ([0x01] ++ ACK ++ [0x01] ++ answer)) [true; true])
    = Raise IndexError
  /\ run (PN532_SPI.xfer_read 4 3) (device [] (map Some ([0x01] ++ answer)) [])
    = Ok [0x00; 0x00; 0xFF]
  /\ getitem [0x00; 0x00; 0xFF] 3 = Raise IndexError
  /\ run (PN532_I2C.call_function None 0x02 (Some []) 4 1)
         (device [] (map Some (ACK ++ answer)) [true; true])
    = Ok (Some [0x03]).
Proof. vm_compute. repeat split. Qed.

(** C3, as stated, fails: the six bytes [00 00 FF 01 02 03] differ from the
    acknowledgement frame in their last three positions, and
    [call_function] accepts them, goes on to the response phase and returns
    the response (I2C); the SPI engine accepts them as well and goes on to
    poll and read the response header. *)
Lemma ack_check_accepts_other_bytes :
  run (PN532_I2C.call_function None 0x02 (Some []) 4 1)
      (device [] (map Some ([0x00; 0x00; 0xFF; 0x01; 0x02; 0x03]
                            ++ [0x00; 0x00; 0xFF; 0x02; 0xFE; 0xD5; 0x03; 0x28; 0x00]))
              [true; true])
    = Ok (Some [0x03])
  /\ bad_start [0x00; 0x00; 0xFF; 0x01; 0x02; 0x03] = Ok false
  /\ [0x00; 0x00; 0xFF; 0x01; 0x02; 0x03] <> ACK
  /\ length [0x00; 0x00; 0xFF; 0x01; 0x02; 0x03] = 6%nat
  /\ reads (trace (snd (PN532_SPI.call_function 4 0x02 (Some []) 4 1
                          (device [] (map Some [0x01; 0x00; 0x00; 0xFF; 0x01; 0x02; 0x03;
                                                0x01; 0x00; 0x00; 0x00])
                                  [true; true])))) = 2%nat.
Proof. vm_compute. repeat split. discriminate. Qed.

(** Whatever the six bytes of the acknowledgement constant are, some other
    six bytes pass the check. *)
Lemma ack_check_not_exact (K : list Z) :
  exists s, length s = 6%nat /\ s <> K /\ bad_start s = Ok false.
Proof.
  destruct (decide (K = [0x00; 0x00; 0xFF; 0x01; 0x02; 0x03])) as [->|Hne].
  - exists ACK. repeat split. discriminate.
  - exists [0x00; 0x00; 0xFF; 0x01; 0x02; 0x03]. repeat split. congruence.
Qed.

(** C3, amended. The acknowledgement check looks at the first three of the
    six bytes read.  When they are not [00 00 FF], [call_function] returns
    [None] in the world the read left: no ready poll and no read follows.
    When they are [00 00 FF], whatever the other three bytes are, the run
    goes on with the ready poll of the response phase and, if the device is
    ready, with the response parser.  SPI and I2C alike. *)
Theorem ack_check_first_three_bytes (_req : option Z) (_cs : Z)
    (command : Z) (params : option (list Z)) (response_length timeout : Z)
    (data ack : list Z) (w w1 w2 w3 : world) :
  frame_data command params = Ok data ->
  (PN532_I2C.send_command _req data w = (Ok tt, w1) ->
   PN532_I2C._wait_ready timeout w1 = (Ok true, w2) ->
   PN532_I2C.read_data 6 w2 = (Ok ack, w3) ->
   length ack = 6%nat
   /\ (take 3 ack <> [0x00; 0x00; 0xFF] ->
       PN532_I2C.call_function _req command params response_length timeout w
         = (Ok None, w3))
   /\ (take 3 ack = [0x00; 0x00; 0xFF] ->
       PN532_I2C.call_function _req command params response_length timeout w
         = (rdy <- PN532_I2C._wait_ready timeout ;;
            if negb rdy then ret None else PN532_I2C.call_function_response) w3))
  /\ (PN532_SPI.send_command _cs data w = (Ok tt, w1) ->
      PN532_SPI._wait_ready timeout w1 = (Ok true, w2) ->
      PN532_SPI.xfer_read _cs 6 w2 = (Ok ack, w3) ->
      length ack = 6%nat
      /\ (take 3 ack <> [0x00; 0x00; 0xFF] ->
          PN532_SPI.call_function _cs command params response_length timeout w
            = (Ok None, w3))
      /\ (take 3 ack = [0x00; 0x00; 0xFF] ->
          PN532_SPI.call_function _cs command params response_length timeout w
            = (rdy <- PN532_SPI._wait_ready timeout ;;
               if negb rdy then ret None
               else PN532_SPI.call_function_response _cs response_length) w3)).
Proof.
  intros Hd. split; intros Hs Hp Hr.
  - assert (Hl : length ack = 6%nat).
    { apply read_data_inv in Hr as [Hl _]; [exact Hl | lia]. }
    destruct (bad_start_spec ack ltac:(lia)) as [Hok Hbad].
    split; [exact Hl|].
    split; intros Ha;
      unfold PN532_I2C.call_function, bind at 1, lift at 1; rewrite Hd;
      unfold try_OSError at 1; rewrite Hs; unfold bind at 1; rewrite Hp;
      cbn [negb]; unfold try_OSError at 1; rewrite Hr;
      unfold bind at 1, lift at 1.
    + rewrite (Hbad Ha). reflexivity.
    + rewrite (Hok Ha). reflexivity.
  - assert (Hl : length ack = 6%nat).
    { apply xfer_read_length in Hr. exact Hr. }
    destruct (bad_start_spec ack ltac:(lia)) as [Hok Hbad].
    split; [exact Hl|].
    split; intros Ha;
      unfold PN532_SPI.call_function, bind at 1, lift at 1; rewrite Hd;
      unfold try_OSError at 1; rewrite Hs; unfold bind at 1; rewrite Hp;
      cbn [negb]; unfold bind at 1; rewrite Hr;
      unfold bind at 1, lift at 1.
    + rewrite (Hbad Ha). reflexivity.
    + rewrite (Hok Ha). reflexivity.
Qed.

Lemma ack_check_first_three_bytes_witness :
  let w := device [] (map Some [0x00; 0x00; 0xFE; 0x00; 0xFF; 0x00]) [true; true] in
  let w1 := snd (PN532_I2C.send_command None [0xD4; 0x02] w) in
  let w2 := snd (PN532_I2C._wait_ready 1 w1) in
  let w3 := snd (PN532_I2C.read_data 6 w2) in
  PN532_I2C.call_function None 0x02 (Some []) 4 1 w = (Ok None, w3).
Proof.
  intros w w1 w2 w3.
  refine (proj1 (proj2 (proj1 (ack_check_first_three_bytes None 4 0x02 (Some []) 4 1
            [0xD4; 0x02] [0x00; 0x00; 0xFE; 0x00; 0xFF; 0x00] w w1 w2 w3 eq_refl)
            eq_refl eq_refl eq_refl)) _).
  simpl. discriminate.
Defined.

(** ** Further properties of the codec and the engines *)

(** The SPI response parser, once the 3-byte header passes the start test,
    raises IndexError at [frame[3]]. *)
Lemma spi_response_header_IndexError (_cs response_length : Z) (w w1 : world)
    (frame : list Z) :
  PN532_SPI.xfer_read _cs 3 w = (Ok frame, w1) ->
  bad_start frame = Ok false ->
  PN532_SPI.call_function_response _cs response_length w = (Raise IndexError, w1).
Proof.
  intros Hx Hb. pose proof (xfer_read_length _ _ _ _ _ Hx) as Hl.
  change (Z.to_nat 3) with 3%nat in Hl.
  unfold PN532_SPI.call_function_response, bind at 1. rewrite Hx.
  unfold bind at 1, lift at 1. rewrite Hb.
  unfold bind at 1, lift at 1, getitem. change (Z.to_nat 3) with 3%nat.
  rewrite (lookup_ge_None_2 frame 3) by lia. reflexivity.
Qed.

(** X1. For every byte sequence [data] that [send_command] accepts
    (1 < len(data) < 255), the I2C frame is [00 00 FF], the length field
    [len(data) + 1], its checksum [256 - (len(data) + 1)], the data, the
    checksum byte [255 - sum(data) mod 256] and a zero byte, and the SPI
    frame is the same with one more zero byte; the length checksum cancels
    the length field, the length field is not the number of payload bytes,
    and payload plus checksum byte sum to 255 modulo 256. *)
Theorem send_command_frame_layout (data : list Z) :
  forallb is_byte data = true -> 1 < len data < 255 ->
  let length_field := len data + 1 in
  let length_checksum := 256 - (len data + 1) in
  let payload_checksum := 255 - sum data mod 256 in
  command_frame 7 false data
    = Ok ([0x00; 0x00; 0xFF; length_field; length_checksum] ++ data
          ++ [payload_checksum; 0x00])
  /\ command_frame 8 true data
    = Ok ([0x00; 0x00; 0xFF; length_field; length_checksum] ++ data
          ++ [payload_checksum; 0x00; 0x00])
  /\ (length_field + length_checksum) mod 256 = 0
  /\ length_field = len data + 1
  /\ (sum data + payload_checksum) mod 256 = 255.
Proof.
  intros Hb Hl. cbv zeta.
  destruct (command_frame_fields data Hl) as (H1 & _ & H3).
  repeat split; try assumption;
    rewrite command_frame_bytes by (auto; lia); reflexivity.
Qed.

Lemma send_command_frame_layout_witness :
  command_frame 7 false [0xD4; 0x4A; 0x01; 0x00]
    = Ok [0x00; 0x00; 0xFF; 0x05; 0xFB; 0xD4; 0x4A; 0x01; 0x00; 0xE0; 0x00].
Proof.
  exact (proj1 (send_command_frame_layout [0xD4; 0x4A; 0x01; 0x00] eq_refl
                  (conj eq_refl eq_refl))).
Defined.

(** X2. No frame built by [send_command] is decoded by the response parser
    of the I2C [call_function]: for every accepted [data] and whatever
    follows the frame on the bus, the parser returns [None] or raises. *)
Theorem command_frame_never_decoded (data frame : list Z)
    (rest : list (option Z)) (w : world) :
  forallb is_byte data = true -> 1 < len data < 255 ->
  command_frame 7 false data = Ok frame ->
  rx w = map Some frame ++ rest ->
  run PN532_I2C.call_function_response w = Ok None
  \/ exists e, run PN532_I2C.call_function_response w = Raise e.
Proof.
  intros Hb Hl Hf Hrx.
  pose proof (response_of_command_frame data frame rest w Hb Hl Hf Hrx) as H.
  unfold run. destruct (fst (PN532_I2C.call_function_response w)) as [[r|]|e].
  - exfalso. apply (H r). reflexivity.
  - left. reflexivity.
  - right. exists e. reflexivity.
Qed.

Lemma command_frame_never_decoded_witness :
  let frame := [0x00; 0x00; 0xFF; 0x05; 0xFB; 0xD4; 0x4A; 0x01; 0x00; 0xE0; 0x00] in
  let w := device [] (map Some frame ++ [Some 0x00; None]) [] in
  run PN532_I2C.call_function_response w = Ok None
  \/ exists e, run PN532_I2C.call_function_response w = Raise e.
Proof.
  intros frame w.
  exact (command_frame_never_decoded [0xD4; 0x4A; 0x01; 0x00] frame
           [Some 0x00; None] w eq_refl (conj eq_refl eq_refl) eq_refl eq_refl).
Defined.

(** X3. The SPI [call_function] never returns a response: on every input
    it returns [None] or raises. *)
Theorem spi_call_function_no_response (_cs : Z)
    (command : Z) (params : option (list Z)) (response_length timeout : Z)
    (w : world) :
  run (PN532_SPI.call_function _cs command params response_length timeout) w
    = Ok None
  \/ exists e,
      run (PN532_SPI.call_function _cs command params response_length timeout) w
        = Raise e.
Proof.
  pose proof (spi_call_function_never_returns _cs command params response_length
                timeout w) as H.
  unfold run.
  destruct (fst (PN532_SPI.call_function _cs command params response_length timeout w))
    as [[r|]|e].
  - exfalso. apply (H r). reflexivity.
  - left. reflexivity.
  - right. exists e. reflexivity.
Qed.

(** X4. With [params=None], [call_function] raises TypeError at
    [len(params)] before any I/O, on both transports; so
    [get_firmware_version], [firmware_version] and [read_gpio], which pass
    [params=None], raise TypeError and leave the world as it was. *)
Theorem call_function_params_None (_req : option Z) (_cs : Z)
    (command response_length timeout : Z) (w : world) :
  PN532_I2C.call_function _req command None response_length timeout w
    = (Raise TypeError, w)
  /\ PN532_SPI.call_function _cs command None response_length timeout w
    = (Raise TypeError, w)
  /\ PN532.get_firmware_version (PN532_I2C.call_function _req) w = (Raise TypeError, w)
  /\ PN532.get_firmware_version (PN532_SPI.call_function _cs) w = (Raise TypeError, w)
  /\ PN532.firmware_version (PN532_I2C.call_function _req) w = (Raise TypeError, w)
  /\ PN532.read_gpio (PN532_I2C.call_function _req) w = (Raise TypeError, w).
Proof. repeat split. Qed.

(** ** Reading and writing whole buffers on the I2C bus *)

Lemma trace_replicate_cons (n : nat) (e : event) (t : list event) :
  replicate n e ++ e :: t = e :: replicate n e ++ t.
Proof. induction n as [|n IH]; simpl; [reflexivity | now rewrite IH]. Qed.

Lemma read_loop_ok (l : list Z) : forall (done pad : list Z) (t : list event)
    (errs : list bool) (q : list (option Z)) (rd : list bool),
  length pad = length l -> forallb is_byte l = true ->
  PN532_I2C.read_loop (length l) (len done) (done ++ pad)
      (World t errs (map Some l ++ q) rd)
    = (Ok (done ++ l), World (replicate (length l) I2cReadByte ++ t) errs q rd).
Proof.
  induction l as [|b l IH]; intros done pad t errs q rd Hp Hb.
  - destruct pad; [|discriminate]. reflexivity.
  - destruct pad as [|p pad]; [discriminate|]. simpl in Hp, Hb.
    apply andb_true_iff in Hb as [Hb Hl].
    cbn [length PN532_I2C.read_loop]. unfold bind at 1. cbn.
    rewrite setitem_ok; [| exact Hb | rewrite length_app; simpl; unfold len; lia].
    replace (Z.to_nat (len done)) with (length done + 0)%nat by (unfold len; lia).
    rewrite insert_app_r. cbn [insert list_insert].
    replace (len done + 1) with (len (done ++ [b]))
      by (unfold len; rewrite length_app; simpl; lia).
    replace (done ++ b :: pad) with ((done ++ [b]) ++ pad)
      by (now rewrite <- app_assoc).
    rewrite IH by (auto; lia).
    rewrite <- app_assoc, trace_replicate_cons. reflexivity.
Qed.

(** [read_data] on a device that delivers the bytes [l] next. *)
Lemma read_data_ok (l : list Z) (t : list event) (errs : list bool)
    (q : list (option Z)) (rd : list bool) :
  forallb is_byte l = true ->
  PN532_I2C.read_data (len l) (World t errs (map Some l ++ q) rd)
    = (Ok l, World (replicate (length l) I2cReadByte ++ t) errs q rd).
Proof.
  intros Hb. unfold PN532_I2C.read_data, bytearray, len.
  rewrite Nat2Z.id.
  apply (read_loop_ok l [] (replicate (length l) 0) t errs q rd);
    [apply length_replicate | exact Hb].
Qed.

Lemma read_loop_bytes (n : nat) : forall (i : Z) (result : list Z) (w : world)
    (bs : list Z) (w' : world),
  PN532_I2C.read_loop n i result w = (Ok bs, w') ->
  0 <= i -> length result = (Z.to_nat i + n)%nat ->
  forallb is_byte (drop (Z.to_nat i) bs) = true
  /\ trace w' = replicate n I2cReadByte ++ trace w
  /\ tx_err w' = tx_err w /\ ready w' = ready w.
Proof.
  induction n as [|n IH]; intros i result w bs w' H Hi Hlen.
  - injection H as <- <-. rewrite drop_ge by lia. auto.
  - cbn [PN532_I2C.read_loop] in H. unfold bind at 1 in H.
    unfold i2c_read_byte in H.
    destruct (rx w) as [|[b|] t] eqn:Hrx; try discriminate.
    unfold bind at 1, lift, setitem in H.
    destruct (is_byte b) eqn:Hb; try discriminate. cbn [negb] in H.
    destruct (Nat.ltb_spec (Z.to_nat i) (length result)) as [Hlt|]; try discriminate.
    pose proof H as H'.
    apply read_loop_inv in H' as (l & Hl & Hbs & _);
      [| lia | rewrite length_insert; lia].
    apply IH in H as (Hby & Ht & He & Hr); [| lia | rewrite length_insert; lia].
    cbn [trace tx_err ready] in *. repeat split; auto.
    + rewrite (drop_S bs b (Z.to_nat i)).
      * cbn [forallb]. rewrite Hb.
        replace (S (Z.to_nat i)) with (Z.to_nat (i + 1)) by lia. exact Hby.
      * rewrite Hbs. rewrite lookup_app_l
          by (rewrite length_take, length_insert; lia).
        rewrite lookup_take_lt by lia.
        apply list_lookup_insert_eq. lia.
    + rewrite Ht. simpl. now rewrite trace_replicate_cons.
Qed.

(** What a successful [read_data] has done: it returns exactly [count]
    bytes, each in 0..255, which are the next [count] bytes of the device;
    it has made [count] bus reads and nothing else. *)
Lemma read_data_returns (count : Z) (w w' : world) (bs : list Z) :
  PN532_I2C.read_data count w = (Ok bs, w') -> 0 <= count ->
  len bs = count /\ forallb is_byte bs = true
  /\ rx w = map Some bs ++ rx w'
  /\ trace w' = replicate (Z.to_nat count) I2cReadByte ++ trace w
  /\ tx_err w' = tx_err w /\ ready w' = ready w.
Proof.
  intros H Hc. destruct (read_data_inv _ _ _ _ H Hc) as [Hl Hq].
  unfold PN532_I2C.read_data, bytearray in H.
  apply read_loop_bytes in H as (Hb & Ht & He & Hr);
    [| lia | rewrite length_replicate; simpl; lia].
  change (Z.to_nat 0) with 0%nat in Hb. rewrite drop_0 in Hb.
  unfold len. repeat split; auto. lia.
Qed.

(** ** The I2C response parser *)

Lemma bad_start_ok_inv (f : list Z) :
  length f = 3%nat -> bad_start f = Ok false -> f = [0x00; 0x00; 0xFF].
Proof.
  intros Hl Hb. destruct (bad_start_spec f ltac:(lia)) as [_ Hbad].
  destruct (decide (take 3 f = [0; 0; 255])) as [Ht|Hn].
  - rewrite take_ge in Ht by lia. exact Ht.
  - rewrite (Hbad Hn) in Hb. discriminate.
Qed.

(** Whatever the I2C response parser returns came from a well-formed
    frame. *)
Lemma i2c_response_some_inv (w w' : world) (r : list Z) :
  PN532_I2C.call_function_response w = (Ok (Some r), w') ->
  exists (L LCS : Z) (body : list Z),
    rx w = map Some ([0x00; 0x00; 0xFF; L; LCS] ++ body) ++ rx w'
    /\ 0 <= L < 256
    /\ (L + LCS) mod 256 = 0
    /\ len body = L + 2
    /\ sum (take (Z.to_nat (L + 1)) body) mod 256 = 0
    /\ r = slice body 1 L
    /\ trace w' = replicate (Z.to_nat (L + 7)) I2cReadByte ++ trace w.
Proof.
  unfold PN532_I2C.call_function_response, try_OSError at 1.
  destruct (PN532_I2C.read_data 3 w) as [[f|e] w1] eqn:E1;
    [| destruct e; unfold ret; intros [=]].
  apply read_data_returns in E1 as (Hl1 & _ & Hq1 & Ht1 & _); [|lia].
  unfold bind at 1, lift at 1.
  destruct (bad_start f) as [[|]|e] eqn:Eb; [unfold ret; intros [=] | | intros [=]].
  apply bad_start_ok_inv in Eb; [| unfold len in Hl1; lia]. subst f.
  unfold bind at 1.
  destruct (PN532_I2C.read_data 2 w1) as [[fl|e] w2] eqn:E2; [| intros [=]].
  apply read_data_returns in E2 as (Hl2 & Hb2 & Hq2 & Ht2 & _); [|lia].
  destruct fl as [|L [|LCS [|x fl]]]; unfold len in Hl2; simpl in Hl2; try lia.
  cbn [forallb] in Hb2. apply andb_true_iff in Hb2 as [HbL _].
  apply is_byte_true in HbL.
  unfold bind at 1, lift at 1. cbn [getitem lookup list_lookup Z.to_nat].
  change (getitem [L; LCS] 0) with (Ok L). cbv iota beta.
  unfold bind at 1, lift at 1. change (getitem [L; LCS] 1) with (Ok LCS).
  cbv iota beta. rewrite land_255.
  destruct (Z.eqb_spec ((L + LCS) mod 256) 0) as [Hlcs|];
    [| unfold ret; intros [=]].
  cbn [negb]. unfold bind at 1, lift at 1. cbv iota beta.
  unfold try_OSError. cbv beta.
  destruct (PN532_I2C.read_data (L + 2) w2) as [[body|e] w3] eqn:E3;
    [| destruct e; unfold ret; intros [=]].
  apply read_data_returns in E3 as (Hl3 & _ & Hq3 & Ht3 & _); [|lia].
  unfold bind at 1, lift at 1.
  rewrite sum_items_ok by (unfold len in Hl3; lia).
  change (Z.to_nat 0) with 0%nat. rewrite drop_0. cbv iota beta.
  rewrite land_255, Z.add_0_l.
  destruct (Z.eqb_spec (sum (take (Z.to_nat (L + 1)) body) mod 256) 0) as [Hdcs|];
    [| unfold ret; intros [=]].
  cbn [negb]. unfold ret. intros [= <- <-].
  exists L, LCS, body. repeat split; try lia; try assumption.
  - rewrite Hq1, Hq2, Hq3. rewrite !map_app, <- !app_assoc. reflexivity.
  - unfold slice. f_equal. lia.
  - rewrite Ht3, Ht2, Ht1.
    replace (Z.to_nat (L + 7)) with (Z.to_nat (L + 2) + (2 + 3))%nat by lia.
    rewrite replicate_add. rewrite <- app_assoc. reflexivity.
Qed.

(** The parser accepts every well-formed frame and returns its payload
    after the first byte. *)
Lemma i2c_response_valid_frame (payload : list Z) (post : Z) (t : list event)
    (errs : list bool) (q : list (option Z)) (rd : list bool) :
  forallb is_byte payload = true -> len payload < 256 -> is_byte post = true ->
  PN532_I2C.call_function_response
      (World t errs
         (map Some ([0x00; 0x00; 0xFF; len payload; (256 - len payload) mod 256]
                    ++ payload ++ [(- sum payload) mod 256; post]) ++ q) rd)
    = (Ok (Some (drop 1 payload)),
       World (replicate (length payload + 7) I2cReadByte ++ t) errs q rd).
Proof.
  intros Hb Hl Hp.
  set (L := len payload). set (LCS := (256 - L) mod 256).
  set (DCS := (- sum payload) mod 256).
  assert (HL : 0 <= L) by (unfold L, len; lia).
  change ([0; 0; 255; L; LCS] ++ payload ++ [DCS; post])
    with ([0; 0; 255] ++ [L; LCS] ++ (payload ++ [DCS; post])).
  rewrite (map_app Some [0; 0; 255]), (map_app Some [L; LCS]), <- !app_assoc.
  unfold PN532_I2C.call_function_response, try_OSError at 1.
  change 3 with (len [0; 0; 255]). rewrite read_data_ok by reflexivity.
  unfold bind at 1, lift at 1.
  change (bad_start [0; 0; 255]) with (Ok (A:=bool) false). cbv iota beta.
  unfold bind at 1. change 2 with (len [L; LCS]) at 1.
  rewrite read_data_ok.
  2:{ cbn [forallb]. rewrite andb_true_r. apply andb_true_iff. split.
      - apply is_byte_true. lia.
      - apply is_byte_mod. }
  unfold bind at 1, lift at 1. change (getitem [L; LCS] 0) with (Ok L).
  cbv iota beta. unfold bind at 1, lift at 1.
  change (getitem [L; LCS] 1) with (Ok LCS). cbv iota beta.
  assert (Hlcs : Z.land (L + LCS) 255 = 0).
  { rewrite land_255. unfold LCS. rewrite Zplus_mod_idemp_r.
    replace (L + (256 - L)) with (1 * 256) by lia. apply Z.mod_mul. lia. }
  rewrite Hlcs. cbn [Z.eqb negb]. unfold bind at 1, lift at 1. cbv iota beta.
  unfold try_OSError. cbv beta.
  assert (Hlen : L + 2 = len (payload ++ [DCS; post])).
  { unfold L, len. rewrite length_app. simpl. lia. }
  rewrite Hlen. rewrite read_data_ok.
  2:{ rewrite forallb_app. rewrite Hb. cbn [forallb]. unfold DCS.
      rewrite is_byte_mod, Hp. reflexivity. }
  unfold bind at 1, lift at 1.
  rewrite sum_items_ok by (rewrite ?length_app; simpl; unfold L, len; lia).
  change (Z.to_nat 0) with 0%nat. rewrite drop_0. cbv iota beta.
  replace (Z.to_nat (L + 1)) with (length payload + 1)%nat by (unfold L, len; lia).
  replace (take (length payload + 1) (payload ++ [DCS; post]))
    with (payload ++ [DCS]).
  2:{ rewrite take_app, take_ge by lia.
      replace (length payload + 1 - length payload)%nat with 1%nat by lia.
      reflexivity. }
  assert (Hdcs : Z.land (0 + sum (payload ++ [DCS])) 255 = 0).
  { rewrite land_255, sum_app.
    replace (sum [DCS]) with DCS by (unfold sum; simpl; lia).
    rewrite Z.add_0_l. unfold DCS. rewrite Zplus_mod_idemp_r.
    replace (sum payload + - sum payload) with 0 by lia. reflexivity. }
  rewrite Hdcs. cbn [Z.eqb negb]. unfold ret. f_equal.
  - f_equal. f_equal. unfold slice.
    replace (Z.to_nat (1 + L - 1 - 1)) with (length payload - 1)%nat
      by (unfold L, len; lia).
    change (Z.to_nat 1) with 1%nat.
    destruct payload as [|a payload]; [reflexivity|].
    simpl. rewrite drop_0, Nat.sub_0_r. apply take_app_length.
  - f_equal. rewrite !length_app. cbn [length].
    replace (length payload + 7)%nat with ((length payload + 2) + (2 + 3))%nat by lia.
    rewrite (replicate_add (length payload + 2)), <- app_assoc.
    rewrite replicate_add. reflexivity.
Qed.

(** ** Writing a buffer on the I2C bus *)

Lemma for_each_app {A} (f : A -> M unit) (l1 l2 : list A) (w : world) :
  for_each (l1 ++ l2) f w = (for_each l1 f ;;; for_each l2 f) w.
Proof.
  revert w. induction l1 as [|x l1 IH]; intros w; simpl.
  - reflexivity.
  - unfold bind. destruct (f x w) as [[u|e] w1]; [| reflexivity].
    rewrite IH. reflexivity.
Qed.

Lemma for_each_concat {A} (f : A -> M unit) (ls : list (list A)) (w : world) :
  for_each ls (fun l => for_each l f) w = for_each (concat ls) f w.
Proof.
  revert w. induction ls as [|l ls IH]; intros w; simpl.
  - reflexivity.
  - rewrite for_each_app. unfold bind.
    destruct (for_each l f w) as [[u|e] w1]; [apply IH | reflexivity].
Qed.

Lemma for_each_map {A B} (g : A -> B) (f : B -> M unit) (l : list A) (w : world) :
  for_each l (fun x => f (g x)) w = for_each (map g l) f w.
Proof.
  revert w. induction l as [|x l IH]; intros w; simpl; [reflexivity|].
  unfold bind. destruct (f (g x) w) as [[u|e] w1]; [apply IH | reflexivity].
Qed.

(** A 16-byte chunk of [write_data]. *)
Lemma chunk_take_drop (data : list Z) (k : nat) :
  slice data (Z.of_nat k * 16) (Z.min (Z.of_nat k * 16 + 16) (len data))
    = take 16 (drop (k * 16) data).
Proof.
  unfold slice, len.
  replace (Z.to_nat (Z.of_nat k * 16)) with (k * 16)%nat by lia.
  destruct (Z.le_gt_cases (Z.of_nat k * 16 + 16) (Z.of_nat (length data))) as [H|H].
  - rewrite Z.min_l by lia. f_equal. lia.
  - rewrite Z.min_r by lia.
    rewrite !take_ge; [reflexivity | rewrite length_drop; lia | rewrite length_drop; lia].
Qed.

Lemma chunks_prefix (data : list Z) (m : nat) :
  concat (map (fun k : nat => take 16 (drop (k * 16) data)) (seq 0 m))
    = take (m * 16) data.
Proof.
  induction m as [|m IH].
  - reflexivity.
  - rewrite seq_S, map_app, concat_app, IH. simpl. rewrite app_nil_r.
    rewrite take_take_drop. f_equal. lia.
Qed.

(** The chunks of [write_data], one after the other, are the data. *)
Lemma chunks_concat (data : list Z) :
  concat (map (fun i => slice data i (Z.min (i + 16) (len data)))
              (range_step (len data) 16)) = data.
Proof.
  unfold range_step. rewrite map_map.
  rewrite (map_ext _ (fun k : nat => take 16 (drop (k * 16) data)))
    by (intros k; apply chunk_take_drop).
  rewrite chunks_prefix. apply take_ge. unfold len.
  pose proof (Z.div_mod (Z.of_nat (length data) + 16 - 1) 16 ltac:(lia)) as Hd.
  pose proof (Z.mod_pos_bound (Z.of_nat (length data) + 16 - 1) 16 ltac:(lia)) as Hm.
  lia.
Qed.

(** [write_data] writes the bytes of [data] one by one, in order. *)
Lemma write_data_each (data : list Z) (w : world) :
  PN532_I2C.write_data data w = for_each data i2c_write_byte w.
Proof.
  unfold PN532_I2C.write_data.
  rewrite (for_each_map (fun i => slice data i (Z.min (i + 16) (len data)))
             (fun chunk => for_each chunk i2c_write_byte)).
  rewrite for_each_concat, chunks_concat. reflexivity.
Qed.

Lemma i2c_write_byte_run (b : Z) (t : list event) (errs : list bool)
    (q : list (option Z)) (rd : list bool) :
  i2c_write_byte b (World t errs q rd)
    = (match errs with true :: _ => Raise OSError | _ => Ok tt end,
       World (I2cWriteByte b :: t) (drop 1 errs) q rd).
Proof. destruct errs as [|[|] errs]; reflexivity. Qed.

Lemma for_each_write_ok (data : list Z) : forall (t : list event) (errs : list bool)
    (q : list (option Z)) (rd : list bool),
  forallb negb (take (length data) errs) = true ->
  for_each data i2c_write_byte (World t errs q rd)
    = (Ok tt, World (rev (map I2cWriteByte data) ++ t) (drop (length data) errs) q rd).
Proof.
  induction data as [|b data IH]; intros t errs q rd He.
  - simpl. rewrite drop_0. reflexivity.
  - cbn [for_each]. unfold bind. rewrite i2c_write_byte_run.
    destruct errs as [|[|] errs]; cbn [length take firstn forallb negb andb] in He;
      try discriminate.
    + cbn [drop skipn]. rewrite IH by (now rewrite take_nil).
      rewrite !drop_nil. simpl. rewrite <- app_assoc. reflexivity.
    + rewrite IH by (simpl; rewrite drop_0; exact He). simpl.
      rewrite drop_0, <- app_assoc. reflexivity.
Qed.

Lemma for_each_write_fail (data : list Z) : forall (k : nat) (t : list event)
    (errs : list bool) (q : list (option Z)) (rd : list bool),
  (k < length data)%nat ->
  for_each data i2c_write_byte (World t (replicate k false ++ true :: errs) q rd)
    = (Raise OSError,
       World (rev (map I2cWriteByte (take (S k) data)) ++ t) errs q rd).
Proof.
  induction data as [|b data IH]; intros k t errs q rd Hk; simpl in Hk; [lia|].
  cbn [for_each]. unfold bind. rewrite i2c_write_byte_run.
  destruct k as [|k]; cbn [replicate app].
  - simpl. rewrite drop_0. reflexivity.
  - cbn [drop skipn]. rewrite drop_0, IH by lia.
    cbn [take firstn map rev]. rewrite <- !app_assoc. reflexivity.
Qed.

(** ** Building and sending the command *)

Lemma store_params_ok (ps : list Z) : forall (done pad : list Z),
  length pad = length ps -> forallb is_byte ps = true -> 2 <= len done ->
  store_params (done ++ pad) (len done - 2) ps = Ok (done ++ ps).
Proof.
  induction ps as [|v ps IH]; intros done pad Hp Hb Hd.
  - destruct pad; [|discriminate]. reflexivity.
  - destruct pad as [|p pad]; [discriminate|]. simpl in Hp, Hb.
    apply andb_true_iff in Hb as [Hv Hb]. cbn [store_params].
    replace (2 + (len done - 2)) with (len done) by lia.
    rewrite setitem_ok; [| exact Hv | rewrite length_app; simpl; unfold len; lia].
    cbn [obind].
    replace (Z.to_nat (len done)) with (length done + 0)%nat by (unfold len; lia).
    rewrite insert_app_r. cbn [insert list_insert].
    replace (len done - 2 + 1) with (len (done ++ [v]) - 2)
      by (unfold len; rewrite length_app; simpl; lia).
    replace (done ++ v :: pad) with ((done ++ [v]) ++ pad) by (now rewrite <- app_assoc).
    rewrite IH; [now rewrite <- app_assoc | lia | exact Hb |].
    unfold len in *. rewrite length_app. simpl. lia.
Qed.

Lemma store_params_bad (ps : list Z) : forall (done pad : list Z),
  length pad = length ps -> forallb is_byte ps = false -> 2 <= len done ->
  store_params (done ++ pad) (len done - 2) ps = Raise ValueError.
Proof.
  induction ps as [|v ps IH]; intros done pad Hp Hb Hd.
  - discriminate.
  - destruct pad as [|p pad]; [discriminate|]. simpl in Hp, Hb.
    cbn [store_params]. replace (2 + (len done - 2)) with (len done) by lia.
    destruct (is_byte v) eqn:Hv.
    + rewrite setitem_ok; [| exact Hv | rewrite length_app; simpl; unfold len; lia].
      cbn [obind].
      replace (Z.to_nat (len done)) with (length done + 0)%nat by (unfold len; lia).
      rewrite insert_app_r. cbn [insert list_insert].
      replace (len done - 2 + 1) with (len (done ++ [v]) - 2)
        by (unfold len; rewrite length_app; simpl; lia).
      replace (done ++ v :: pad) with ((done ++ [v]) ++ pad)
        by (now rewrite <- app_assoc).
      apply IH; [lia | exact Hb |].
      unfold len in *. rewrite length_app. simpl. lia.
    + unfold setitem. rewrite Hv. reflexivity.
Qed.

(** The payload [call_function] builds: the direction byte D4, the command
    modulo 256, the parameters. *)
Lemma frame_data_bytes (command : Z) (ps : list Z) :
  forallb is_byte ps = true ->
  frame_data command (Some ps) = Ok (0xD4 :: command mod 256 :: ps).
Proof.
  intros Hb. unfold frame_data, bytearray, len.
  replace (Z.to_nat (2 + Z.of_nat (length ps))) with (2 + length ps)%nat by lia.
  rewrite replicate_add. change (replicate 2 0) with [0; 0]. cbn [app].
  rewrite setitem_ok by (try reflexivity; cbn [length]; lia). cbn [obind].
  change (Z.to_nat 0) with 0%nat. cbn [insert list_insert].
  rewrite land_255.
  rewrite setitem_ok by (try apply is_byte_mod; cbn [length]; lia). cbn [obind].
  change (Z.to_nat 1) with 1%nat. cbn [insert list_insert].
  apply (store_params_ok ps [212; command mod 256] (replicate (length ps) 0));
    [apply length_replicate | exact Hb | unfold len; simpl; lia].
Qed.

Lemma frame_data_bad (command : Z) (ps : list Z) :
  forallb is_byte ps = false ->
  frame_data command (Some ps) = Raise ValueError.
Proof.
  intros Hb. unfold frame_data, bytearray, len.
  replace (Z.to_nat (2 + Z.of_nat (length ps))) with (2 + length ps)%nat by lia.
  rewrite replicate_add. change (replicate 2 0) with [0; 0]. cbn [app].
  rewrite setitem_ok by (try reflexivity; cbn [length]; lia). cbn [obind].
  change (Z.to_nat 0) with 0%nat. cbn [insert list_insert].
  rewrite land_255.
  rewrite setitem_ok by (try apply is_byte_mod; cbn [length]; lia). cbn [obind].
  change (Z.to_nat 1) with 1%nat. cbn [insert list_insert].
  apply (store_params_bad ps [212; command mod 256] (replicate (length ps) 0));
    [apply length_replicate | exact Hb | unfold len; simpl; lia].
Qed.


Lemma read_loop_fail (l : list Z) : forall (n : nat) (done pad : list Z)
    (t : list event) (errs : list bool) (q : list (option Z)) (rd : list bool),
  length pad = n -> (length l < n)%nat -> forallb is_byte l = true ->
  PN532_I2C.read_loop n (len done) (done ++ pad)
      (World t errs (map Some l ++ None :: q) rd)
    = (Raise OSError, World (replicate (S (length l)) I2cReadByte ++ t) errs q rd).
Proof.
  induction l as [|b l IH]; intros n done pad t errs q rd Hp Hn Hb.
  - destruct n as [|n]; [simpl in Hn; lia|]. reflexivity.
  - destruct n as [|n]; [simpl in Hn; lia|].
    destruct pad as [|p pad]; [discriminate|]. simpl in Hp, Hn, Hb.
    apply andb_true_iff in Hb as [Hb Hl].
    cbn [PN532_I2C.read_loop]. unfold bind at 1. cbn.
    rewrite setitem_ok; [| exact Hb | rewrite length_app; simpl; unfold len; lia].
    replace (Z.to_nat (len done)) with (length done + 0)%nat by (unfold len; lia).
    rewrite insert_app_r. cbn [insert list_insert].
    replace (len done + 1) with (len (done ++ [b]))
      by (unfold len; rewrite length_app; simpl; lia).
    replace (done ++ b :: pad) with ((done ++ [b]) ++ pad)
      by (now rewrite <- app_assoc).
    rewrite IH by (auto; lia).
    rewrite (trace_replicate_cons (S (length l))). reflexivity.
Qed.

(** X5. A successful I2C [read_data(count)] returns exactly [count] bytes,
    each in 0..255; they are the next [count] bytes of the device, and the
    call has made [count] byte reads on the bus and nothing else.  When the
    device fails after delivering fewer than [count] bytes, [read_data]
    raises OSError and has consumed the bytes delivered so far. *)
Theorem i2c_read_data_exact (count : Z) (w : world) :
  0 <= count ->
  (forall bs w', PN532_I2C.read_data count w = (Ok bs, w') ->
     len bs = count /\ forallb is_byte bs = true
     /\ rx w = map Some bs ++ rx w'
     /\ trace w' = replicate (Z.to_nat count) I2cReadByte ++ trace w
     /\ tx_err w' = tx_err w /\ ready w' = ready w)
  /\ (forall l q, rx w = map Some l ++ None :: q -> len l < count ->
        forallb is_byte l = true ->
        PN532_I2C.read_data count w
          = (Raise OSError,
             World (replicate (S (length l)) I2cReadByte ++ trace w)
                   (tx_err w) q (ready w))).
Proof.
  intros Hc. split.
  - intros bs w' H. now apply read_data_returns.
  - intros l q Hrx Hl Hb. destruct w as [t errs r rd]. simpl in *. subst r.
    unfold PN532_I2C.read_data, bytearray.
    apply (read_loop_fail l (Z.to_nat count) [] (replicate (Z.to_nat count) 0));
      [apply length_replicate | unfold len in Hl; lia | exact Hb].
Qed.

Lemma i2c_read_data_exact_witness :
  PN532_I2C.read_data 3 (device [] [Some 7; Some 8; None; Some 9] [])
    = (Raise OSError, World [I2cReadByte; I2cReadByte; I2cReadByte] [] [Some 9] []).
Proof.
  exact (proj2 (i2c_read_data_exact 3 (device [] [Some 7; Some 8; None; Some 9] [])
                  ltac:(discriminate))
           [7; 8] [Some 9] eq_refl eq_refl eq_refl).
Defined.

(** X6. I2C [write_data] puts the bytes of [data] on the bus one by one,
    in their order, whatever the length (the 16-byte chunking loses and
    repeats nothing).  When the bus takes them all, the trace grows by
    exactly these writes; when the write of byte number [k] fails, the call
    raises OSError after [k + 1] writes and sends nothing further. *)
Theorem i2c_write_data_in_order (data : list Z) (t : list event)
    (q : list (option Z)) (rd : list bool) :
  (forall errs, forallb negb (take (length data) errs) = true ->
     PN532_I2C.write_data data (World t errs q rd)
       = (Ok tt, World (rev (map I2cWriteByte data) ++ t)
                       (drop (length data) errs) q rd))
  /\ (forall k errs, (k < length data)%nat ->
        PN532_I2C.write_data data (World t (replicate k false ++ true :: errs) q rd)
          = (Raise OSError,
             World (rev (map I2cWriteByte (take (S k) data)) ++ t) errs q rd)).
Proof.
  split.
  - intros errs He. rewrite write_data_each. now apply for_each_write_ok.
  - intros k errs Hk. rewrite write_data_each. now apply for_each_write_fail.
Qed.

Lemma i2c_write_data_in_order_witness :
  PN532_I2C.write_data (map Z.of_nat (seq 0 20)) (device [] [] [])
    = (Ok tt, World (rev (map I2cWriteByte (map Z.of_nat (seq 0 20)))) [] [] []).
Proof.
  exact (proj1 (i2c_write_data_in_order (map Z.of_nat (seq 0 20)) [] [] [])
           [] eq_refl).
Defined.

(** X7. Whatever the I2C response parser of [call_function] returns came
    from a well-formed frame: the bytes it consumed are [00 00 FF], a
    length [L] and a length checksum [LCS] with [(L + LCS) mod 256 = 0],
    and [L + 2] more bytes of which the first [L + 1] sum to 0 modulo 256;
    the result is bytes 1 to [L - 1] of those; exactly [L + 7] bytes were
    read. *)
Theorem i2c_response_parser_sound (w w' : world) (r : list Z) :
  PN532_I2C.call_function_response w = (Ok (Some r), w') ->
  exists (L LCS : Z) (body : list Z),
    rx w = map Some ([0x00; 0x00; 0xFF; L; LCS] ++ body) ++ rx w'
    /\ 0 <= L < 256
    /\ (L + LCS) mod 256 = 0
    /\ len body = L + 2
    /\ sum (take (Z.to_nat (L + 1)) body) mod 256 = 0
    /\ r = slice body 1 L
    /\ trace w' = replicate (Z.to_nat (L + 7)) I2cReadByte ++ trace w.
Proof. apply i2c_response_some_inv. Qed.

Lemma i2c_response_parser_sound_witness :
  exists (L LCS : Z) (body : list Z),
    map Some [0x00; 0x00; 0xFF; 0x02; 0xFE; 0xD5; 0x03; 0x28; 0x00]
      = map Some ([0x00; 0x00; 0xFF; L; LCS] ++ body) ++ []
    /\ 0 <= L < 256
    /\ (L + LCS) mod 256 = 0
    /\ len body = L + 2
    /\ sum (take (Z.to_nat (L + 1)) body) mod 256 = 0
    /\ [0x03] = slice body 1 L
    /\ replicate 9 I2cReadByte
       = replicate (Z.to_nat (L + 7)) I2cReadByte ++ [].
Proof.
  exact (i2c_response_parser_sound
           (device [] (map Some [0x00; 0x00; 0xFF; 0x02; 0xFE; 0xD5; 0x03; 0x28; 0x00]) [])
           (World (replicate 9 I2cReadByte) [] [] []) [0x03] eq_refl).
Defined.

(** X8. The I2C response parser accepts every well-formed frame: for a
    payload of at most 255 bytes, sent as [00 00 FF], its length, the
    two's complement of the length, the payload, the two's complement of
    its sum and one more byte, the parser returns the payload without its
    first byte (the direction byte; the response code stays) and has
    consumed exactly the frame. *)
Theorem i2c_response_parser_complete (payload : list Z) (post : Z)
    (t : list event) (errs : list bool) (q : list (option Z)) (rd : list bool) :
  forallb is_byte payload = true -> len payload < 256 -> is_byte post = true ->
  PN532_I2C.call_function_response
      (World t errs
         (map Some ([0x00; 0x00; 0xFF; len payload; (256 - len payload) mod 256]
                    ++ payload ++ [(- sum payload) mod 256; post]) ++ q) rd)
    = (Ok (Some (drop 1 payload)),
       World (replicate (length payload + 7) I2cReadByte ++ t) errs q rd).
Proof. apply i2c_response_valid_frame. Qed.

Lemma i2c_response_parser_complete_witness :
  PN532_I2C.call_function_response
      (device [] (map Some [0x00; 0x00; 0xFF; 0x06; 0xFA;
                            0xD5; 0x03; 0x32; 0x01; 0x06; 0x07; 0xE8; 0x00]) [])
    = (Ok (Some [0x03; 0x32; 0x01; 0x06; 0x07]),
       World (replicate 13 I2cReadByte) [] [] []).
Proof.
  exact (i2c_response_parser_complete [0xD5; 0x03; 0x32; 0x01; 0x06; 0x07] 0x00
           [] [] [] [] eq_refl eq_refl eq_refl).
Defined.

Lemma frame_data_spec (command : Z) (params : option (list Z)) :
  frame_data command params
    = match params with
      | None => Raise TypeError
      | Some ps => if forallb is_byte ps
                   then Ok (0xD4 :: command mod 256 :: ps)
                   else Raise ValueError
      end.
Proof.
  destruct params as [ps|]; [|reflexivity].
  destruct (forallb is_byte ps) eqn:Hb.
  - now apply frame_data_bytes.
  - now apply frame_data_bad.
Qed.

(** X9. The payload [call_function] builds from a command and its
    parameters: with [params=None] it raises TypeError; with parameters
    that are all in 0..255 it is the direction byte D4, the command modulo
    256 and the parameters; with a parameter outside 0..255 it raises
    ValueError. *)
Theorem frame_data_cases (command : Z) (params : option (list Z)) :
  frame_data command params
    = match params with
      | None => Raise TypeError
      | Some ps => if forallb is_byte ps
                   then Ok (0xD4 :: command mod 256 :: ps)
                   else Raise ValueError
      end.
Proof. apply frame_data_spec. Qed.

(** X10. [call_function] accepts at most 252 parameter bytes: with more,
    the assertion of [send_command] fails (the payload would have 255 bytes
    or more) and AssertionError is raised before any I/O, on SPI and on
    I2C. *)
Theorem call_function_params_limit (_req : option Z) (_cs : Z)
    (command : Z) (ps : list Z) (response_length timeout : Z) (w : world) :
  forallb is_byte ps = true -> 252 < len ps ->
  PN532_I2C.call_function _req command (Some ps) response_length timeout w
    = (Raise (AssertionError "Data must be array of 1 to 255 bytes."), w)
  /\ PN532_SPI.call_function _cs command (Some ps) response_length timeout w
    = (Raise (AssertionError "Data must be array of 1 to 255 bytes."), w).
Proof.
  intros Hb Hl.
  assert (Ha : (1 <? len (212 :: command mod 256 :: ps))
               && (len (212 :: command mod 256 :: ps) <? 255) = false).
  { apply andb_false_iff. right. apply Z.ltb_ge. unfold len in *. cbn [length]. lia. }
  split.
  - unfold PN532_I2C.call_function, bind at 1, lift at 1.
    rewrite frame_data_bytes by exact Hb.
    unfold try_OSError, PN532_I2C.send_command, send_command_assert.
    rewrite Ha. reflexivity.
  - unfold PN532_SPI.call_function, bind at 1, lift at 1.
    rewrite frame_data_bytes by exact Hb.
    unfold try_OSError, PN532_SPI.send_command, send_command_assert.
    rewrite Ha. reflexivity.
Qed.

Lemma call_function_params_limit_witness :
  PN532_I2C.call_function None 0x40 (Some (replicate 253 0)) 1 1 (device [] [] [])
    = (Raise (AssertionError "Data must be array of 1 to 255 bytes."), device [] [] []).
Proof.
  exact (proj1 (call_function_params_limit None 4 0x40 (replicate 253 0) 1 1
                  (device [] [] []) eq_refl eq_refl)).
Defined.




Section CatalogMore.

Variable cf : Z -> option (list Z) -> Z -> Z -> M (option (list Z)).

Lemma slice_length_le (l : list Z) (lo hi : Z) :
  (length (slice l lo hi) <= Z.to_nat (hi - lo))%nat.
Proof. unfold slice. rewrite length_take. lia. Qed.

Lemma read_passive_target_inv (card_baud timeout : Z) (w w' : world) (uid : list Z) :
  PN532.read_passive_target cf card_baud timeout w = (Ok (Some uid), w') ->
  exists (r : list Z) (n : Z),
    cf _COMMAND_INLISTPASSIVETARGET (Some [0x01; card_baud]) 20 timeout w
      = (Ok (Some r), w')
    /\ r !! 0%nat = Some 1 /\ r !! 5%nat = Some n /\ n <= 7
    /\ uid = slice r 6 (6 + n).
Proof.
  intros H. unfold PN532.read_passive_target, bind at 1 in H.
  destruct (cf _ _ _ _ w) as [[[r|]|e] w1] eqn:Hcf; try discriminate H.
  unfold bind at 1, lift at 1, getitem in H. change (Z.to_nat 0) with 0%nat in H.
  destruct (r !! 0%nat) as [r0|] eqn:H0; [| discriminate H].
  destruct (Z.eqb_spec r0 1) as [->|]; [| discriminate H].
  cbn [negb] in H. unfold bind at 1, lift at 1 in H.
  change (Z.to_nat 5) with 5%nat in H.
  destruct (r !! 5%nat) as [r5|] eqn:H5; [| discriminate H].
  destruct (Z.ltb_spec 7 r5); [discriminate H|].
  injection H as <- <-. exists r, r5. auto.
Qed.

End CatalogMore.

(** X12. Whenever [read_passive_target] returns a UID, the response of
    the transport had target count 1 and a UID length byte [n] of at most
    7, the UID is [response[6:6+n]], and it has at most 7 bytes;
    [get_passive_mifare] then returns that UID with its length. *)
Theorem read_passive_target_uid
    (cf : Z -> option (list Z) -> Z -> Z -> M (option (list Z)))
    (w w' : world) (uid : list Z) :
  PN532.read_passive_target cf _MIFARE_ISO14443A 1000 w = (Ok (Some uid), w') ->
  (exists (r : list Z) (n : Z),
     cf _COMMAND_INLISTPASSIVETARGET (Some [0x01; _MIFARE_ISO14443A]) 20 1000 w
       = (Ok (Some r), w')
     /\ r !! 0%nat = Some 1 /\ r !! 5%nat = Some n /\ n <= 7
     /\ uid = slice r 6 (6 + n))
  /\ (length uid <= 7)%nat
  /\ PN532.get_passive_mifare cf w = (Ok (Some (len uid, uid)), w').
Proof.
  intros H. pose proof (read_passive_target_inv cf _ _ _ _ _ H) as Hinv.
  split; [exact Hinv|]. split.
  - destruct Hinv as (r & n & _ & _ & _ & Hn & ->).
    pose proof (slice_length_le r 6 (6 + n)). lia.
  - unfold PN532.get_passive_mifare, bind. rewrite H. reflexivity.
Qed.

Lemma read_passive_target_uid_witness :
  let cf := fun _ _ _ _ => ret (Some [1; 0; 4; 0; 8; 4; 0xDE; 0xAD; 0xBE; 0xEF]) in
  PN532.get_passive_mifare cf (device [] [] [])
    = (Ok (Some (4, [0xDE; 0xAD; 0xBE; 0xEF])), device [] [] []).
Proof.
  intros cf.
  exact (proj2 (proj2 (read_passive_target_uid cf (device [] [] []) (device [] [] [])
                         [0xDE; 0xAD; 0xBE; 0xEF] eq_refl))).
Defined.

(** X13. SPI [read_data(count)] returns [count + 1] bytes, one more than
    asked for: it clocks [count + 2] bytes and drops the first. *)
Theorem spi_read_data_length (_cs count : Z) (w w' : world) (r : list Z) :
  0 <= count ->
  PN532_SPI.read_data _cs count w = (Ok r, w') ->
  len r = count + 1
  /\ exists b, rx w = map Some (b :: r) ++ rx w'.
Proof.
  intros Hc H. split.
  - apply xfer_read_length in H. unfold len. lia.
  - revert H. unfold PN532_SPI.read_data, PN532_SPI.xfer_read, bind, gpio_output,
      spi_xfer2, ret, slice_from.
    cbn [log trace tx_err rx ready length].
    destruct (clock_in (S (length (replicate (Z.to_nat (count + 1)) 0))) (rx w))
      as [[bs|e] q] eqn:E; intros H; try discriminate.
    injection H as <- <-. cbn [rx].
    assert (Hci : forall n qq bs' q', clock_in n qq = (Ok bs', q') ->
                    qq = map Some bs' ++ q').
    { induction n as [|n IH]; intros qq bs' q' Hq; simpl in Hq.
      - injection Hq as <- <-. reflexivity.
      - destruct qq as [|[b|] tq]; try discriminate.
        destruct (clock_in n tq) as [[bs''|e] t'] eqn:E'; try discriminate.
        injection Hq as <- <-. simpl. f_equal. eapply IH, E'. }
    pose proof (clock_in_length _ _ _ _ E) as Hlen.
    apply Hci in E. destruct bs as [|b bs]; [discriminate|].
    exists b. exact E.
Qed.

Lemma spi_read_data_length_witness :
  len [0x0A; 0x0B; 0x0C] = 2 + 1
  /\ exists b, map Some [0x09; 0x0A; 0x0B; 0x0C; 0x0D]
               = map Some (b :: [0x0A; 0x0B; 0x0C]) ++ [Some 0x0D].
Proof.
  exact (spi_read_data_length 4 2
           (device [] (map Some [0x09; 0x0A; 0x0B; 0x0C; 0x0D]) [])
           (World [GpioOutput 4 GPIO_HIGH; SpiXfer2 [3; 0; 0; 0]; GpioOutput 4 GPIO_LOW]
                  [] [Some 0x0D] [])
           [0x0A; 0x0B; 0x0C] ltac:(discriminate) eq_refl).
Defined.

(** ** What the I2C engine can raise *)

Lemma read_loop_raises (n : nat) : forall (i : Z) (result : list Z) (w : world)
    (e : exn) (w' : world),
  PN532_I2C.read_loop n i result w = (Raise e, w') ->
  0 <= i -> length result = (Z.to_nat i + n)%nat ->
  e = OSError \/ e = ValueError.
Proof.
  induction n as [|n IH]; intros i result w e w' H Hi Hlen.
  - discriminate.
  - cbn [PN532_I2C.read_loop] in H. unfold bind at 1 in H.
    unfold i2c_read_byte in H.
    destruct (rx w) as [|[b|] t] eqn:Hrx; try (injection H as <- _; now left).
    unfold bind at 1, lift, setitem in H.
    destruct (negb (is_byte b)); [injection H as <- _; now right|].
    destruct (Nat.ltb_spec (Z.to_nat i) (length result)) as [Hlt|Hge]; [|lia].
    eapply IH; [exact H | lia | rewrite length_insert; lia].
Qed.

Lemma read_data_raises (count : Z) (w : world) (e : exn) (w' : world) :
  PN532_I2C.read_data count w = (Raise e, w') -> e = OSError \/ e = ValueError.
Proof.
  unfold PN532_I2C.read_data, bytearray. intros H.
  eapply read_loop_raises; [exact H | lia | rewrite length_replicate; simpl; lia].
Qed.

Lemma for_each_write_raises (data : list Z) : forall (w : world) (e : exn) (w' : world),
  for_each data i2c_write_byte w = (Raise e, w') -> e = OSError.
Proof.
  induction data as [|b data IH]; intros w e w' H.
  - discriminate.
  - cbn [for_each] in H. unfold bind in H. destruct w as [t errs q rd].
    rewrite i2c_write_byte_run in H.
    destruct errs as [|[|] errs]; try (eapply IH; exact H).
    injection H as <- _. reflexivity.
Qed.

Lemma i2c_send_command_raises (_req : option Z) (data : list Z) (w : world)
    (e : exn) (w' : world) :
  forallb is_byte data = true ->
  PN532_I2C.send_command _req data w = (Raise e, w') ->
  e = AssertionError "Data must be array of 1 to 255 bytes." \/ e = OSError.
Proof.
  intros Hb. unfold PN532_I2C.send_command, send_command_assert.
  destruct ((1 <? len data) && (len data <? 255)) eqn:Ha.
  - unfold assert, bind at 1, ret. unfold bind at 1, lift.
    rewrite command_frame_bytes by (auto; lia).
    unfold bind at 1, PN532_I2C.req_output.
    assert (Hg : forall lvl, exists w1,
              match _req with Some pin => gpio_output pin lvl | None => ret tt end w
                = (Ok tt, w1)).
    { intros lvl. destruct _req; eexists; reflexivity. }
    destruct (Hg GPIO_LOW) as [w1 ->]. unfold bind at 1.
    rewrite write_data_each.
    match goal with |- context [for_each ?l i2c_write_byte w1] =>
      destruct (for_each l i2c_write_byte w1) as [[u|e1] w2] eqn:E end.
    + destruct _req; discriminate.
    + intros [= <- _]. right. eapply for_each_write_raises, E.
  - unfold assert, bind, raise. intros [= <- _]. now left.
Qed.

Lemma i2c_response_raises (w : world) (e : exn) (w' : world) :
  PN532_I2C.call_function_response w = (Raise e, w') -> e = OSError \/ e = ValueError.
Proof.
  unfold PN532_I2C.call_function_response, try_OSError at 1.
  destruct (PN532_I2C.read_data 3 w) as [[f|e1] w1] eqn:E1.
  2:{ destruct (read_data_raises _ _ _ _ E1) as [-> | ->];
        [discriminate | intros [= <- _]; now right]. }
  apply read_data_returns in E1 as (Hl1 & _); [|lia].
  unfold bind at 1, lift at 1.
  destruct (bad_start_spec f ltac:(unfold len in Hl1; lia)) as [Hok Hbad].
  destruct (decide (take 3 f = [0; 0; 255])) as [Ht|Hn];
    [rewrite (Hok Ht) | rewrite (Hbad Hn); discriminate].
  unfold bind at 1.
  destruct (PN532_I2C.read_data 2 w1) as [[fl|e2] w2] eqn:E2.
  2:{ intros [= <- _]. eapply read_data_raises, E2. }
  apply read_data_returns in E2 as (Hl2 & Hb2 & _); [|lia].
  destruct fl as [|L [|LCS [|x fl]]]; unfold len in Hl2; simpl in Hl2; try lia.
  cbn [forallb] in Hb2. apply andb_true_iff in Hb2 as [HbL _].
  apply is_byte_true in HbL.
  unfold bind at 1, lift at 1. change (getitem [L; LCS] 0) with (Ok L).
  cbv iota beta. unfold bind at 1, lift at 1.
  change (getitem [L; LCS] 1) with (Ok LCS). cbv iota beta.
  destruct (negb (Z.land (L + LCS) 255 =? 0)); [discriminate|].
  unfold bind at 1, lift at 1. cbv iota beta. unfold try_OSError. cbv beta.
  destruct (PN532_I2C.read_data (L + 2) w2) as [[body|e3] w3] eqn:E3.
  2:{ destruct (read_data_raises _ _ _ _ E3) as [-> | ->];
        [discriminate | intros [= <- _]; now right]. }
  apply read_data_returns in E3 as (Hl3 & _); [|lia].
  unfold bind at 1, lift at 1.
  rewrite sum_items_ok by (unfold len in Hl3; lia). cbv iota beta.
  match goal with |- context [negb ?c] => destruct (negb c) end; discriminate.
Qed.

(** X14. The I2C [call_function] raises nothing but TypeError (no
    parameter list), ValueError (a parameter, or a byte handed over by the
    bus, outside 0..255), the AssertionError of [send_command] and OSError:
    it never indexes out of range.  An OSError of the send is always
    caught. *)
Theorem i2c_call_function_raises (_req : option Z) (command : Z)
    (params : option (list Z)) (response_length timeout : Z)
    (w w' : world) (e : exn) :
  PN532_I2C.call_function _req command params response_length timeout w
    = (Raise e, w') ->
  e = TypeError \/ e = ValueError
  \/ e = AssertionError "Data must be array of 1 to 255 bytes."
  \/ e = OSError.
Proof.
  unfold PN532_I2C.call_function, bind at 1, lift at 1.
  rewrite frame_data_spec. destruct params as [ps|]; [| intros [= <- _]; auto].
  destruct (forallb is_byte ps) eqn:Hps; [| intros [= <- _]; auto].
  set (data := 212 :: command mod 256 :: ps).
  assert (Hdb : forallb is_byte data = true).
  { unfold data. cbn [forallb]. rewrite is_byte_mod, Hps. reflexivity. }
  unfold try_OSError at 1.
  destruct (PN532_I2C.send_command _req data w) as [[u|e1] w1] eqn:Es.
  2:{ destruct (i2c_send_command_raises _ _ _ _ _ Hdb Es) as [-> | ->].
      - intros [= <- _]. auto.
      - unfold bind, PN532_I2C._wakeup. destruct _req; discriminate. }
  unfold bind at 1, PN532_I2C._wait_ready at 1, poll_ready at 1.
  destruct (ready w1) as [|[|] rd]; try discriminate.
  cbn [negb]. unfold try_OSError at 1.
  match goal with |- context [PN532_I2C.read_data 6 ?w2] =>
    destruct (PN532_I2C.read_data 6 w2) as [[ack|e2] w3] eqn:Ea end.
  2:{ destruct (read_data_raises _ _ _ _ Ea) as [-> | ->];
        [discriminate | intros [= <- _]; auto]. }
  apply read_data_returns in Ea as (Hla & _); [|lia].
  unfold bind at 1, lift at 1.
  destruct (bad_start_spec ack ltac:(unfold len in Hla; lia)) as [Hok Hbad].
  destruct (decide (take 3 ack = [0; 0; 255])) as [Ht|Hn];
    [rewrite (Hok Ht) | rewrite (Hbad Hn); discriminate].
  unfold bind at 1, PN532_I2C._wait_ready at 1, poll_ready at 1.
  destruct (ready w3) as [|[|] rd']; try discriminate.
  cbn [negb]. intros H. apply i2c_response_raises in H as [-> | ->]; auto.
Qed.

Lemma i2c_call_function_raises_witness :
  OSError = TypeError \/ OSError = ValueError
  \/ OSError = AssertionError "Data must be array of 1 to 255 bytes."
  \/ OSError = OSError.
Proof.
  exact (i2c_call_function_raises None 0x02 (Some []) 4 1
           (device [] (map Some (ACK ++ [0x00; 0x00; 0xFF; 0x02]) ++ [None]) [true; true])
           (snd (PN532_I2C.call_function None 0x02 (Some []) 4 1
                   (device [] (map Some (ACK ++ [0x00; 0x00; 0xFF; 0x02]) ++ [None])
                           [true; true])))
           OSError eq_refl).
Defined.

(** ** Card-memory and GPIO operations on the transport's answers *)

(** X15. [read_ntag2xx] and [write_ntag2xx] on what the transport
    answers.  A block number above 231 makes [read_ntag2xx] raise before
    any I/O.  Otherwise one DataExchange is made and its answer decides: a
    first byte 0 gives the rest of the answer (read) or [True] (write, for
    a list of 4 data bytes and a block in 4..129); another first byte gives
    the RuntimeError of the operation; no answer gives TypeError, and an
    empty answer IndexError, because the answer is subscripted untested.
    [write_ntag2xx] with 4 data bytes in a [bytes] or [bytearray] object
    passes the argument checks and raises TypeError before any I/O, when
    the data is added to the parameter list. *)
Theorem ntag2xx_answers
    (cf : Z -> option (list Z) -> Z -> Z -> M (option (list Z)))
    (block_number : Z) (data : pyseq) (w w' : world) (answer : option (list Z)) :
  (NTAG2XX_BLOCK_COUNT < block_number ->
     PN532.read_ntag2xx cf block_number w
       = (Raise (RuntimeError "Block must be 0..231"), w))
  /\ (block_number <= NTAG2XX_BLOCK_COUNT ->
      cf _COMMAND_INDATAEXCHANGE (Some [0x01; NTAG2XX_CMD_READ; block_number]) 17 1000 w
        = (Ok answer, w') ->
      PN532.read_ntag2xx cf block_number w
        = (match answer with
           | None => Raise TypeError
           | Some [] => Raise IndexError
           | Some (status :: rest) =>
               if status =? 0 then Ok rest
               else Raise (RuntimeError "Failed to read data")
           end, w'))
  /\ (length (items data) = 4%nat ->
      NTAG2XX_USER_START_PAGE <= block_number <= NTAG2XX_USER_END_PAGE ->
      match data with
      | PyBytes _ =>
          PN532.write_ntag2xx cf block_number data w = (Raise TypeError, w)
      | PyList d =>
          cf _COMMAND_INDATAEXCHANGE
             (Some ([0x01; NTAG2XX_CMD_WRITE; block_number] ++ d)) 1 1000 w
            = (Ok answer, w') ->
          PN532.write_ntag2xx cf block_number data w
            = (match answer with
               | None => Raise TypeError
               | Some [] => Raise IndexError
               | Some (status :: _) =>
                   if status =? 0 then Ok true
                   else Raise (RuntimeError "Failed to write data")
               end, w')
      end).
Proof.
  repeat split.
  - intros Hb. unfold PN532.read_ntag2xx.
    replace (NTAG2XX_BLOCK_COUNT <? block_number) with true by lia. reflexivity.
  - intros Hb Hcf. unfold PN532.read_ntag2xx.
    replace (NTAG2XX_BLOCK_COUNT <? block_number) with false by lia.
    unfold bind at 1. rewrite Hcf. unfold bind, lift, subscript, getitem.
    destruct answer as [[|s rest]|]; try reflexivity.
    simpl. destruct (s =? 0); reflexivity.
  - intros Hl Hb. unfold PN532.write_ntag2xx, len. rewrite Hl.
    change (negb (Z.of_nat 4 =? 0) && (Z.of_nat 4 =? 4)) with true.
    unfold assert, bind at 1, ret.
    replace ((block_number <? NTAG2XX_USER_START_PAGE)
             || (NTAG2XX_USER_END_PAGE <? block_number)) with false by lia.
    destruct data as [d|d]; [|reflexivity].
    intros Hcf. unfold bind at 1, lift at 1. cbn [list_add].
    unfold bind at 1. rewrite Hcf. unfold bind, lift, subscript, getitem.
    destruct answer as [[|s rest]|]; try reflexivity.
    simpl. destruct (s =? 0); reflexivity.
Qed.

Lemma ntag2xx_answers_witness :
  PN532.read_ntag2xx (PN532_I2C.call_function None) 4 (device [] [] [])
    = (Raise TypeError,
       snd (PN532_I2C.call_function None _COMMAND_INDATAEXCHANGE
              (Some [0x01; NTAG2XX_CMD_READ; 4]) 17 1000 (device [] [] [])))
  /\ PN532.write_ntag2xx (PN532_I2C.call_function None) 4 (PyBytes [1; 2; 3; 4])
       (device [] [] [])
     = (Raise TypeError, device [] [] []).
Proof.
  pose proof (ntag2xx_answers (PN532_I2C.call_function None) 4 (PyBytes [1; 2; 3; 4])
                (device [] [] [])
                (snd (PN532_I2C.call_function None _COMMAND_INDATAEXCHANGE
                        (Some [0x01; NTAG2XX_CMD_READ; 4]) 17 1000
                        (device [] [] [])))
                None) as (_ & Hr & Hw).
  assert (Hb : NTAG2XX_USER_START_PAGE <= 4 <= NTAG2XX_USER_END_PAGE)
    by (split; discriminate).
  split.
  - exact (Hr ltac:(discriminate) eq_refl).
  - exact (Hw eq_refl Hb).
Defined.

(** X16. [write_gpio] on what the transport answers: no answer or an
    empty answer raises RuntimeError, a first byte other than 0 raises
    RuntimeError, a first byte 0 gives [True]; it never subscripts an
    absent answer. *)
Theorem write_gpio_answers
    (cf : Z -> option (list Z) -> Z -> Z -> M (option (list Z)))
    (p3 p7 : Z) (w w' : world) (answer : option (list Z)) :
  cf _COMMAND_WRITEGPIO (Some [p3; p7]) 1 1000 w = (Ok answer, w') ->
  PN532.write_gpio cf p3 p7 w
    = (match answer with
       | Some (status :: _) =>
           if status =? 0 then Ok true
           else Raise (RuntimeError "Failed to write GPIO")
       | _ => Raise (RuntimeError "Failed to write GPIO")
       end, w').
Proof.
  intros Hcf. unfold PN532.write_gpio, bind at 1. rewrite Hcf.
  destruct answer as [[|s rest]|]; try reflexivity.
  cbn [PN532.not_response]. unfold bind, lift, subscript, getitem. simpl.
  destruct (s =? 0); reflexivity.
Qed.

Lemma write_gpio_answers_witness :
  PN532.write_gpio (fun _ _ _ _ => ret (Some [0x00])) 1 2 (device [] [] [])
    = (Ok true, device [] [] []).
Proof.
  exact (write_gpio_answers (fun _ _ _ _ => ret (Some [0x00])) 1 2
           (device [] [] []) (device [] [] []) (Some [0x00]) eq_refl).
Defined.

(** X17. [read_mifare] and [write_mifare] are three exchanges in a row:
    the target listing, which gives the UID; the authentication, whose
    parameters are 01, the key command (60 for key number 0, otherwise
    61), the block number, the key (six bytes FF when none is given) and
    the UID; and the read (01 30 block) or write (01 A0 block and the 16
    data bytes).  When both data exchanges answer with status 0,
    [read_mifare] returns the answer after the status byte and
    [write_mifare], given its 16 data bytes as a list, returns [True].
    Given them as a [bytes] or [bytearray] object, [write_mifare] lists the
    target, authenticates, and then raises TypeError without the write
    exchange, when the data is added to the parameter list. *)
Theorem mifare_exchanges
    (cf : Z -> option (list Z) -> Z -> Z -> M (option (list Z)))
    (block_number key_number : Z) (key : option (list Z)) (data : pyseq)
    (r : list Z) (n : Z) (a b : list Z) (w w1 w2 w3 : world) :
  cf _COMMAND_INLISTPASSIVETARGET (Some [0x01; _MIFARE_ISO14443A]) 20 1000 w
    = (Ok (Some r), w1) ->
  r !! 0%nat = Some 1 -> r !! 5%nat = Some n -> n <= 7 ->
  let uid := slice r 6 (6 + n) in
  let key_bytes := match key with
                   | None | Some [] => [0xFF; 0xFF; 0xFF; 0xFF; 0xFF; 0xFF]
                   | Some k => k
                   end in
  let auth := 0x01 :: (if key_number =? 0 then 0x60 else 0x61) :: block_number
              :: key_bytes ++ uid in
  cf _COMMAND_INDATAEXCHANGE (Some auth) 1 1000 w1 = (Ok (Some (0 :: a)), w2) ->
  (cf _COMMAND_INDATAEXCHANGE (Some [0x01; 0x30; block_number]) 17 1000 w2
     = (Ok (Some (0 :: b)), w3) ->
   PN532.read_mifare cf block_number key_number key w = (Ok b, w3))
  /\ (length (items data) = 16%nat ->
      match data with
      | PyBytes _ =>
          PN532.write_mifare cf block_number data key_number key w
            = (Raise TypeError, w2)
      | PyList d =>
          cf _COMMAND_INDATAEXCHANGE (Some ([0x01; 0xA0; block_number] ++ d)) 1 1000 w2
            = (Ok (Some (0 :: b)), w3) ->
          PN532.write_mifare cf block_number data key_number key w = (Ok true, w3)
      end).
Proof.
  intros Hl H0 H5 Hn uid key_bytes auth Ha.
  assert (Ht : PN532.get_passive_mifare cf w = (Ok (Some (len uid, uid)), w1)).
  { unfold PN532.get_passive_mifare, bind.
    rewrite (read_passive_target_some cf _ _ _ _ _ Hl). unfold getitem.
    change (Z.to_nat 0) with 0%nat. change (Z.to_nat 5) with 5%nat.
    rewrite H0, H5. simpl. replace (7 <? n) with false by lia. reflexivity. }
  assert (Hauth : 0x01 :: PN532.key_cmd block_number key_number
                            (PN532.default_key key) uid = auth).
  { unfold auth, PN532.key_cmd, PN532.default_key, key_bytes.
    destruct (key_number =? 0); reflexivity. }
  split.
  - intros Hr. unfold PN532.read_mifare. unfold bind at 1. rewrite Ht.
    rewrite Hauth. unfold bind at 1. rewrite Ha.
    unfold bind at 1, lift at 1. cbn [subscript getitem lookup list_lookup Z.to_nat].
    change (getitem (0 :: a) 0) with (Ok 0). cbv iota beta. cbn [Z.eqb negb].
    unfold bind at 1. change MIFARE_CMD_READ with 0x30. rewrite Hr.
    reflexivity.
  - intros Hd. destruct data as [d|d]; cbn [items] in Hd; [intros Hw|];
      unfold PN532.write_mifare, len; cbn [items]; rewrite Hd;
      change (negb (Z.of_nat 16 =? 0) && (Z.of_nat 16 =? 16)) with true;
      unfold assert, bind at 1, ret;
      unfold bind at 1; rewrite Ht; rewrite Hauth; unfold bind at 1; rewrite Ha;
      unfold bind at 1, lift at 1;
      change (subscript (Some (0 :: a)) 0) with (Ok 0); cbv iota beta;
      cbn [Z.eqb negb]; unfold bind at 1, lift at 1; cbn [list_add].
    + unfold bind at 1. change MIFARE_CMD_WRITE with 0xA0. rewrite Hw.
      reflexivity.
    + reflexivity.
Qed.

Lemma mifare_exchanges_witness :
  let cf := fun (command : Z) (_ : option (list Z)) (_ _ : Z) =>
              ret (if command =? _COMMAND_INLISTPASSIVETARGET
                   then Some [1; 0; 4; 0; 8; 4; 0xDE; 0xAD; 0xBE; 0xEF]
                   else Some [0; 0x11; 0x22]) in
  PN532.read_mifare cf 4 0 None (device [] [] []) = (Ok [0x11; 0x22], device [] [] [])
  /\ PN532.write_mifare cf 4 (replicate 16 0x5A) 0 None (device [] [] [])
     = (Ok true, device [] [] [])
  /\ PN532.write_mifare cf 4 (PyBytes (replicate 16 0x5A)) 0 None (device [] [] [])
     = (Raise TypeError, device [] [] []).
Proof.
  intros cf.
  pose proof (fun data =>
    mifare_exchanges cf 4 0 None data
      [1; 0; 4; 0; 8; 4; 0xDE; 0xAD; 0xBE; 0xEF] 4 [0x11; 0x22] [0x11; 0x22]
      (device [] [] []) (device [] [] []) (device [] [] []) (device [] [] [])
      eq_refl eq_refl eq_refl ltac:(discriminate) eq_refl) as H.
  exact (conj (proj1 (H (PyList [])) eq_refl)
          (conj (proj2 (H (PyList (replicate 16 0x5A))) eq_refl eq_refl)
                (proj2 (H (PyBytes (replicate 16 0x5A))) eq_refl))).
Defined.

(** ** A failed send *)

(** X18. A send that fails leaves the select or request line low.  SPI
    [write_data] sets chip select low, makes one transfer of 01 and the
    data, and sets chip select high only if the transfer succeeded.  I2C
    [send_command] with a request pin sets it low, writes the frame byte by
    byte, and when the write of byte number [k] fails raises OSError after
    [k + 1] writes without setting the pin high again. *)
Theorem failed_send_leaves_line_low (_cs pin : Z) (data : list Z)
    (t : list event) (errs : list bool) (q : list (option Z)) (rd : list bool) :
  PN532_SPI.write_data _cs data (World t (true :: errs) q rd)
    = (Raise OSError,
       World (SpiWriteBytes (0x01 :: data) :: GpioOutput _cs GPIO_LOW :: t) errs q rd)
  /\ PN532_SPI.write_data _cs data (World t (false :: errs) q rd)
    = (Ok tt,
       World (GpioOutput _cs GPIO_HIGH :: SpiWriteBytes (0x01 :: data)
              :: GpioOutput _cs GPIO_LOW :: t) errs q rd)
  /\ (forall k, forallb is_byte data = true -> 1 < len data < 255 ->
        (k < length data + 7)%nat ->
        PN532_I2C.send_command (Some pin) data
            (World t (replicate k false ++ true :: errs) q rd)
          = (Raise OSError,
             World (rev (map I2cWriteByte
                           (take (S k)
                              ([0x00; 0x00; 0xFF; len data + 1; 256 - (len data + 1)]
                               ++ data ++ [255 - sum data mod 256; 0x00])))
                    ++ GpioOutput pin GPIO_LOW :: t) errs q rd)).
Proof.
  split; [reflexivity|]. split; [reflexivity|].
  intros k Hb Hl Hk. unfold PN532_I2C.send_command, send_command_assert.
  replace ((1 <? len data) && (len data <? 255)) with true by lia.
  unfold assert, bind at 1, ret. unfold bind at 1, lift.
  rewrite command_frame_bytes by (auto; lia).
  change (replicate (Z.to_nat (7 - 6)) 0) with [0].
  unfold PN532_I2C.req_output, bind at 1, gpio_output, log.
  cbn [trace tx_err rx ready]. unfold bind at 1. rewrite write_data_each.
  rewrite for_each_write_fail; [reflexivity|].
  rewrite !length_app. simpl. lia.
Qed.

Lemma failed_send_leaves_line_low_witness :
  PN532_I2C.send_command (Some 16) [0xD4; 0x02] (device [false; false; true] [] [])
    = (Raise OSError,
       World [I2cWriteByte 0xFF; I2cWriteByte 0x00; I2cWriteByte 0x00;
              GpioOutput 16 GPIO_LOW] [] [] []).
Proof.
  exact (proj2 (proj2 (failed_send_leaves_line_low 4 16 [0xD4; 0x02] [] [] [] []))
           2%nat eq_refl (conj eq_refl eq_refl) ltac:(simpl; lia)).
Defined.

(** ** Card detection over I2C *)


